(** * DID Rotate protocol manager and OOB problem-report validation

    A shallow embedding of

    - [aries_cloudagent/protocols/did_rotate/v1_0/manager.py]
      (class [DIDRotateManager]), and
    - [aries_cloudagent/protocols/out_of_band/v1_0/messages/problem_report.py]
      (method [OOBProblemReportSchema.validate_fields]),

    followed by the properties of the specification, each stated over the
    embedded code.

    The manager is a Python coroutine class that talks to four collaborators
    (DID resolver, connection manager, responder, storage) and mutates the
    [ConnRecord] and [RotateRecord] objects it is handed.  It is modelled in
    a state-and-exception monad over a [World] that holds the object heap,
    the chronological trace of collaborator calls and the message-id supply.
    The state survives a raised exception, exactly as a Python object keeps
    the attribute values assigned before the [raise]. *)

From stdpp Require Import base option list gmap strings.

(** ** Part I: [did_rotate/v1_0/manager.py] *)

Module Manager.

(** *** Records and messages *)

(** Modelled from the spec: the constants [RotateRecord.ROLE_*] of the
    [models] module, which the manager only names (section 3, "role: enum
    {ROTATING, OBSERVING}"). *)
Inductive Role := ROLE_ROTATING | ROLE_OBSERVING.

(** Modelled from the spec: the constants [RotateRecord.STATE_*] that the
    manager assigns (section 4.2: SENT, RECEIVED, ACK_SENT). *)
Inductive State := STATE_ROTATE_SENT | STATE_ROTATE_RECEIVED | STATE_ACK_SENT.

(** [RotateRecord(role=, state=, connection_id=, new_did=, thread_id=)].
    [new_did] and [thread_id] are optional keyword arguments in Python and
    are [None] until assigned. *)
Record RotateRecord := mkRotateRecord {
  role : Role;
  state : State;
  connection_id : string;
  new_did : option string;
  thread_id : option string
}.

(** The two attributes of [ConnRecord] that the manager touches. *)
Record ConnRecord := mkConnRecord {
  conn_connection_id : string;
  their_did : option string
}.

(** [Rotate(to_did=...)]; [_message_id] is drawn when the message object is
    built. *)
Record Rotate := mkRotate {
  rotate_message_id : string;
  to_did : string
}.

(** [RotateAck()], then [assign_thread_id(thid=...)]. *)
Record RotateAck := mkRotateAck {
  ack_message_id : string;
  ack_thid : option string
}.

(** Modelled from the spec: the reason codes of [RotateProblemReport]
    (section 3, "code: enum{DID_UNRESOLVABLE, DID_METHOD_UNSUPPORTED}"). *)
Inductive ProblemReportReason := UNRESOLVABLE | METHOD_UNSUPPORTED.

(** Modelled from the spec: the [RotateProblemReport] message built by the
    class methods [unresolvable(did)] and [method_unsupported(did)] of the
    [messages] module: a reason code and the DID it is about. *)
Record RotateProblemReport := mkRotateProblemReport {
  report_message_id : string;
  report_code : ProblemReportReason;
  report_did : string
}.

Inductive Message :=
  | MsgRotate (m : Rotate)
  | MsgRotateAck (m : RotateAck)
  | MsgProblemReport (m : RotateProblemReport).

(** *** Exceptions *)

(** The exception classes the manager defines, raises or catches.
    [OtherError] stands for any exception class the manager neither raises
    nor names in an [except] clause (a transport or storage error, say). *)
Inductive exn :=
  | ValueError (msg : string)
  | DIDRotateManagerError (msg : string)
  | UnresolvableDIDError (message : RotateProblemReport)
  | UnsupportedDIDMethodError (message : RotateProblemReport)
  | BaseConnectionManagerError (msg : string)
  | DIDMethodNotSupported
  | DIDNotFound
  | OtherError (name : string).

(** [isinstance(err, ReportableDIDRotateError)], returning [err.message]:
    the class has exactly the two subclasses below. *)
Definition as_ReportableDIDRotateError (e : exn) : option RotateProblemReport :=
  match e with
  | UnresolvableDIDError m => Some m
  | UnsupportedDIDMethodError m => Some m
  | _ => None
  end.

(** *** Collaborators *)

(** One constructor per awaited collaborator call of the manager, with the
    arguments the call receives. *)
Inductive Call :=
  | CallResolve (did : string)
      (* resolver.resolve(self.profile, did) *)
  | CallResolveDidcommServices (did : string)
      (* conn_mgr.resolve_didcomm_services(did) *)
  | CallRecordKeys (did : string)
      (* conn_mgr.record_keys_for_resolvable_did(did) *)
  | CallSend (msg : Message) (connection_id : string)
      (* responder.send(msg, connection_id=...) *)
  | CallSaveConn (c : ConnRecord) (reason : string) (event : option bool)
      (* conn.save(session, reason=..., event=...) *)
  | CallSaveRecord (r : RotateRecord) (reason : string) (event : option bool).
      (* record.save(session, reason=...) *)

(** The environment of the manager: what each collaborator call does
    ([None]: it returns; [Some e]: it raises [e]) and the identifiers that
    message construction draws. *)
Record Collaborators := mkCollaborators {
  perform : Call → option exn;
  uuid4 : nat → string
}.

(** *** The world *)

Record World := mkWorld {
  trace : list Call;                 (* collaborator calls, oldest first *)
  next_uuid : nat;                   (* identifiers drawn so far *)
  conns : gmap nat ConnRecord;       (* ConnRecord objects, by reference *)
  records : gmap nat RotateRecord    (* RotateRecord objects, by reference *)
}.

Definition set_trace (t : list Call) (w : World) : World :=
  mkWorld t (next_uuid w) (conns w) (records w).
Definition set_next_uuid (n : nat) (w : World) : World :=
  mkWorld (trace w) n (conns w) (records w).
Definition set_conns (m : gmap nat ConnRecord) (w : World) : World :=
  mkWorld (trace w) (next_uuid w) m (records w).
Definition set_records (m : gmap nat RotateRecord) (w : World) : World :=
  mkWorld (trace w) (next_uuid w) (conns w) m.

(** *** The monad *)

(** How a coroutine ends.  [Fault] is not a Python outcome: it is what the
    model answers when handed a reference that names no object. *)
Inductive Outcome (A : Type) :=
  | Returned (a : A)
  | Raised (e : exn)
  | Fault.
Arguments Returned {A} a.
Arguments Raised {A} e.
Arguments Fault {A}.

Definition M (A : Type) : Type := World → Outcome A * World.

#[global] Instance M_ret : MRet M := λ A a w, (Returned a, w).

#[global] Instance M_bind : MBind M := λ A B f m w,
  match m w with
  | (Returned a, w') => f a w'
  | (Raised e, w') => (Raised e, w')
  | (Fault, w') => (Fault, w')
  end.

Definition raise {A} (e : exn) : M A := λ w, (Raised e, w).

(** [try: body / except ...: handler].  [handler e] is [None] when no
    [except] clause matches [e], which then propagates. *)
Definition try_except {A} (body : M A) (handler : exn → option (M A)) : M A :=
  λ w,
    match body w with
    | (Raised e, w') =>
        match handler e with
        | Some h => h w'
        | None => (Raised e, w')
        end
    | r => r
    end.

Section WithCollaborators.

Context (env : Collaborators).

(** An awaited collaborator call: it is recorded in the trace, then it
    returns or raises as the environment says. *)
Definition call (c : Call) : M unit := λ w,
  let w' := set_trace (trace w ++ [c]) w in
  match perform env c with
  | None => (Returned tt, w')
  | Some e => (Raised e, w')
  end.

(** The identifier a freshly built message receives. *)
Definition fresh_message_id : M string := λ w,
  (Returned (uuid4 env (next_uuid w)), set_next_uuid (S (next_uuid w)) w).

(** Attribute reads and writes on the two kinds of objects. *)
Definition get_conn (c : nat) : M ConnRecord := λ w,
  match conns w !! c with
  | Some o => (Returned o, w)
  | None => (Fault, w)
  end.

Definition get_record (r : nat) : M RotateRecord := λ w,
  match records w !! r with
  | Some o => (Returned o, w)
  | None => (Fault, w)
  end.

Definition with_state (s : State) (o : RotateRecord) : RotateRecord :=
  mkRotateRecord (role o) s (connection_id o) (new_did o) (thread_id o).

Definition with_thread_id (t : option string) (o : RotateRecord) : RotateRecord :=
  mkRotateRecord (role o) (state o) (connection_id o) (new_did o) t.

Definition with_their_did (d : option string) (o : ConnRecord) : ConnRecord :=
  mkConnRecord (conn_connection_id o) d.

(** [record.state = s] *)
Definition set_record_state (r : nat) (s : State) : M unit := λ w,
  match records w !! r with
  | Some o => (Returned tt, set_records (<[r := with_state s o]> (records w)) w)
  | None => (Fault, w)
  end.

(** [conn.their_did = d] *)
Definition set_conn_their_did (c : nat) (d : option string) : M unit := λ w,
  match conns w !! c with
  | Some o => (Returned tt, set_conns (<[c := with_their_did d o]> (conns w)) w)
  | None => (Fault, w)
  end.

(** Message constructors. *)
Definition new_Rotate (to : string) : M Rotate :=
  i ← fresh_message_id; mret (mkRotate i to).

Definition new_RotateAck : M RotateAck :=
  i ← fresh_message_id; mret (mkRotateAck i None).

Definition assign_thread_id (thid : option string) (a : RotateAck) : RotateAck :=
  mkRotateAck (ack_message_id a) thid.

Definition method_unsupported (did : string) : M RotateProblemReport :=
  i ← fresh_message_id; mret (mkRotateProblemReport i METHOD_UNSUPPORTED did).

Definition unresolvable (did : string) : M RotateProblemReport :=
  i ← fresh_message_id; mret (mkRotateProblemReport i UNRESOLVABLE did).

(** Python truth value of an optional string: [None] and [""] are false. *)
Definition truthy (s : option string) : option string :=
  match s with
  | Some "" => None
  | Some d => Some d
  | None => None
  end.

(** *** The manager's coroutines *)

(** Each [await] on a collaborator is a [call].  Looking a collaborator up
    ([self.profile.inject(...)], [BaseConnectionManager(self.profile)]) and
    entering or leaving [async with self.profile.session()] are not calls of
    the model: they return.  The cause that [raise ... from err] attaches to
    an exception is not kept. *)

(** [rotate_my_did(self, conn, new_did)].  [conn] is only read here, so it
    is passed by value. *)
Definition rotate_my_did (conn : ConnRecord) (new_did : string) : M unit :=
  let record :=
    mkRotateRecord ROLE_ROTATING STATE_ROTATE_SENT
                   (conn_connection_id conn) (Some new_did) None in
  rotate ← new_Rotate new_did;
  let record := with_thread_id (Some (rotate_message_id rotate)) record in
  call (CallSend (MsgRotate rotate) (conn_connection_id conn));;
  call (CallSaveRecord record "Sent rotate message" None).

(** [ensure_supported_did(self, did)] *)
Definition ensure_supported_did (did : string) : M unit :=
  try_except (call (CallResolve did))
    (λ e, match e with
          | DIDMethodNotSupported =>
              Some (m ← method_unsupported did;
                    raise (UnsupportedDIDMethodError m))
          | DIDNotFound =>
              Some (m ← unresolvable did;
                    raise (UnresolvableDIDError m))
          | _ => None
          end);;
  try_except (call (CallResolveDidcommServices did))
    (λ e, match e with
          | BaseConnectionManagerError _ =>
              Some (raise (DIDRotateManagerError
                             "Unable to resolve DIDComm services for DID"))
          | _ => None
          end).

(** [receive_rotate(self, conn, rotate)].  [conn] and [rotate] are only
    read. *)
Definition receive_rotate (conn : ConnRecord) (rotate : Rotate) : M unit :=
  let record :=
    mkRotateRecord ROLE_OBSERVING STATE_ROTATE_RECEIVED
                   (conn_connection_id conn) (Some (to_did rotate))
                   (Some (rotate_message_id rotate)) in
  try_except (ensure_supported_did (to_did rotate))
    (λ e, match as_ReportableDIDRotateError e with
          | Some message =>
              Some (call (CallSend (MsgProblemReport message)
                                   (conn_connection_id conn)))
          | None => None
          end);;
  call (CallSaveRecord record "Received rotate message" None).

(** [commit_rotate(self, conn, record)].  Both arguments are mutated, so they
    are references into the heap of the world. *)
Definition commit_rotate (conn : nat) (record : nat) : M unit :=
  set_record_state record STATE_ACK_SENT;;
  r ← get_record record;
  match truthy (new_did r) with
  | None => raise (ValueError "No new DID stored in record")
  | Some did =>
      try_except (call (CallRecordKeys did))
        (λ e, match e with
              | BaseConnectionManagerError _ =>
                  Some (raise (DIDRotateManagerError
                                 "Unable to record keys for resolvable DID"))
              | _ => None
              end);;
      r ← get_record record;
      set_conn_their_did conn (new_did r);;
      ack ← new_RotateAck;
      r ← get_record record;
      let ack := assign_thread_id (thread_id r) ack in
      c ← get_conn conn;
      call (CallSend (MsgRotateAck ack) (conn_connection_id c));;
      c ← get_conn conn;
      call (CallSaveConn c "Their DID rotated" (Some false));;
      r ← get_record record;
      call (CallSaveRecord r "Sent rotate ack" None)
  end.

(** [receive_ack] and [receive_problem_report] have an empty body. *)
Definition receive_ack (conn : ConnRecord) (ack : RotateAck) : M unit :=
  mret tt.

Definition receive_problem_report (conn : ConnRecord)
    (problem_report : RotateProblemReport) : M unit :=
  mret tt.

End WithCollaborators.

(** *** Observations on a trace *)

(** The messages handed to the responder, with their target connection. *)
Definition sent_messages (t : list Call) : list (Message * string) :=
  omap (λ c, match c with CallSend m cid => Some (m, cid) | _ => None end) t.

(** The [RotateRecord] snapshots handed to storage. *)
Definition saved_records (t : list Call) : list RotateRecord :=
  omap (λ c, match c with CallSaveRecord r _ _ => Some r | _ => None end) t.

(** The [ConnRecord] snapshots handed to storage, with their [event] flag. *)
Definition saved_conns (t : list Call) : list (ConnRecord * option bool) :=
  omap (λ c, match c with CallSaveConn o _ e => Some (o, e) | _ => None end) t.

(** The DIDs on which service discovery was invoked. *)
Definition service_discoveries (t : list Call) : list string :=
  omap (λ c, match c with
             | CallResolveDidcommServices d => Some d
             | _ => None
             end) t.

(** The collaborator calls of a commit that runs to its end, in order. *)
Definition commit_steps (env : Collaborators) (w : World)
    (conn : ConnRecord) (record : RotateRecord) (did : string) : list Call :=
  let ack := mkRotateAck (uuid4 env (next_uuid w)) (thread_id record) in
  [ CallRecordKeys did;
    CallSend (MsgRotateAck ack) (conn_connection_id conn);
    CallSaveConn (with_their_did (new_did record) conn)
                 "Their DID rotated" (Some false);
    CallSaveRecord (with_state STATE_ACK_SENT record) "Sent rotate ack" None ].

(** The calls a run added to the trace. *)
Definition new_calls (w w' : World) : list Call :=
  drop (length (trace w)) (trace w').

End Manager.

(** ** Part II: [out_of_band/v1_0/messages/problem_report.py] *)

Module ProblemReport.

(** *** Python values *)

(** A Python [dict] with string keys: the entries in insertion order, which
    is the order [keys()] yields.  A dict holds each key once. *)
Definition dict (V : Type) : Type := list (string * V).

(** [d.get(k)] *)
Fixpoint dict_get {V} (d : dict V) (k : string) : option V :=
  match d with
  | [] => None
  | (k', v) :: d' => if decide (k' = k) then Some v else dict_get d' k
  end.

(** [list(d.keys())] *)
Definition dict_keys {V} (d : dict V) : list string := d.*1.

(** The values [validate_fields] can meet in the loaded [data]: the
    [description] field is a dict from strings to strings, the other fields
    of the report are strings. *)
Inductive value :=
  | VStr (s : string)
  | VDict (d : dict string).

(** The exceptions this method can end with. *)
Inductive exn :=
  | ValidationError (msg : string)
  | ValueError (msg : string)
  | IndexError (msg : string)
  | AttributeError (msg : string).

(** [class ProblemReportReason(Enum)], and
    [[prr.value for prr in ProblemReportReason]]. *)
Inductive ProblemReportReason :=
  | NO_EXISTING_CONNECTION
  | EXISTING_CONNECTION_NOT_ACTIVE.

Definition reason_value (r : ProblemReportReason) : string :=
  match r with
  | NO_EXISTING_CONNECTION => "no_existing_connection"
  | EXISTING_CONNECTION_NOT_ACTIVE => "existing_connection_not_active"
  end.

Definition reason_values : list string :=
  reason_value <$> [NO_EXISTING_CONNECTION; EXISTING_CONNECTION_NOT_ACTIVE].

(** *** The monad: the records of [LOGGER], and exceptions *)

Definition V (A : Type) : Type := list string → (exn + A) * list string.

#[global] Instance V_ret : MRet V := λ A a log, (inr a, log).

#[global] Instance V_bind : MBind V := λ A B f m log,
  match m log with
  | (inr a, log') => f a log'
  | (inl e, log') => (inl e, log')
  end.

Definition throw {A} (e : exn) : V A := λ log, (inl e, log).

(** [LOGGER.warning(msg)] *)
Definition warning (msg : string) : V unit := λ log, (inr tt, log ++ [msg]).

(** *** Python operations used by the method *)

(** [v.get(k, dflt)] on a value that should be a dict. *)
Definition value_get (v : option value) (k : string) : V (option string) :=
  match v with
  | Some (VDict d) => mret (dict_get d k)
  | Some (VStr _) => throw (AttributeError "'str' object has no attribute 'get'")
  | None => throw (AttributeError "'NoneType' object has no attribute 'get'")
  end.

(** [v.keys()] on a value that should be a dict. *)
Definition value_keys (v : option value) : V (list string) :=
  match v with
  | Some (VDict d) => mret (dict_keys d)
  | Some (VStr _) => throw (AttributeError "'str' object has no attribute 'keys'")
  | None => throw (AttributeError "'NoneType' object has no attribute 'keys'")
  end.

(** [l.remove(x)]: drops the first [x]; [ValueError] when there is none. *)
Fixpoint list_remove_first (x : string) (l : list string) : option (list string) :=
  match l with
  | [] => None
  | y :: l' =>
      if decide (y = x) then Some l'
      else cons y <$> list_remove_first x l'
  end.

Definition remove (x : string) (l : list string) : V (list string) :=
  match list_remove_first x l with
  | Some l' => mret l'
  | None => throw (ValueError "list.remove(x): x not in list")
  end.

(** [l[i]] for [0 <= i]: [IndexError] past the end. *)
Definition index (l : list string) (i : nat) : V string :=
  match l !! i with
  | Some x => mret x
  | None => throw (IndexError "list index out of range")
  end.

(** How an f-string renders an optional string. *)
Definition format (o : option string) : string := default "None" o.

Definition newline : string :=
  String (Ascii.Ascii false true false true false false false false) "".

(** [data.get("description", {}).get("code", "")] *)
Definition description_code (data : dict value) : V string :=
  let description := default (VDict []) (dict_get data "description") in
  code ← value_get (Some description) "code";
  mret (default "" code).

(** The text of the warning. *)
Definition unexpected_code_message (code description : option string) : string :=
  "Unexpected error code received." +:+ newline +:+
  "Code: " +:+ format code +:+ ", " +:+
  "Description: " +:+ format description.

(** [validate_fields(self, data, **kwargs)] *)
Definition validate_fields (data : dict value) : V unit :=
  code ← description_code data;
  if decide (code = "") then
    throw (ValidationError "Value for description.code must be present")
  else
    code ← description_code data;
    if decide (code ∉ reason_values) then
      locales ← value_keys (dict_get data "description");
      locales ← remove "code" locales;
      code ← value_get (dict_get data "description") "code";
      l0 ← index locales 0;
      description ← value_get (dict_get data "description") l0;
      warning (unexpected_code_message code description)
    else
      mret tt.

(** [check_thread_deco(self, obj, **kwargs)], the [pre_dump] hook.
    [to_dict obj] is [obj._decorators.to_dict()]: the decorators by name,
    each a dict of its own fields.  [keys() >= {"thid", "pthid"}] is the
    superset test on the key set. *)
Definition check_thread_deco {O F : Type}
    (to_dict : O → dict (dict F)) (obj : O) : exn + O :=
  let thread := default [] (dict_get (to_dict obj) "~thread") in
  if decide (({["thid"; "pthid"]} : gset string)
               ⊆ list_to_set (dict_keys thread))
  then inr obj
  else inl (ValidationError "Missing required field(s) in thread decorator").

(** Whether the schema accepts [data]: the validator returns. *)
Definition accepts (data : dict value) (log : list string) : bool :=
  match validate_fields data log with
  | (inr _, _) => true
  | (inl _, _) => false
  end.

End ProblemReport.

(** ** Sample inputs *)

Module Sample.

Import Manager.

Definition uuids (n : nat) : string :=
  match n with
  | 0 => "0c5d8b1e-0000"
  | 1 => "0c5d8b1e-0001"
  | _ => "0c5d8b1e-ffff"
  end.

(** Every collaborator call succeeds. *)
Definition all_succeed : Collaborators :=
  mkCollaborators (λ _, None) uuids.

(** Key recording fails in the connection manager. *)
Definition keys_fail : Collaborators :=
  mkCollaborators
    (λ c, match c with
          | CallRecordKeys _ => Some (BaseConnectionManagerError "no keys")
          | _ => None
          end) uuids.

(** The resolver does not find the DID. *)
Definition did_not_found : Collaborators :=
  mkCollaborators
    (λ c, match c with CallResolve _ => Some DIDNotFound | _ => None end)
    uuids.

(** The resolver does not know the DID method. *)
Definition method_not_supported : Collaborators :=
  mkCollaborators
    (λ c, match c with
          | CallResolve _ => Some DIDMethodNotSupported
          | _ => None
          end) uuids.

(** Resolution succeeds, service discovery fails. *)
Definition services_fail : Collaborators :=
  mkCollaborators
    (λ c, match c with
          | CallResolveDidcommServices _ =>
              Some (BaseConnectionManagerError "no services")
          | _ => None
          end) uuids.

(** The responder cannot deliver. *)
Definition send_fails : Collaborators :=
  mkCollaborators
    (λ c, match c with
          | CallSend _ _ => Some (OtherError "transport")
          | _ => None
          end) uuids.

(** Storage refuses rotate records. *)
Definition record_save_fails : Collaborators :=
  mkCollaborators
    (λ c, match c with
          | CallSaveRecord _ _ _ => Some (OtherError "storage")
          | _ => None
          end) uuids.

(** The DID is not found and the responder cannot deliver. *)
Definition not_found_and_send_fails : Collaborators :=
  mkCollaborators
    (λ c, match c with
          | CallResolve _ => Some DIDNotFound
          | CallSend _ _ => Some (OtherError "transport")
          | _ => None
          end) uuids.

(** The resolver and service discovery break in ways the manager does not
    name. *)
Definition resolver_breaks : Collaborators :=
  mkCollaborators
    (λ c, match c with
          | CallResolve _ => Some (OtherError "resolver")
          | _ => None
          end) uuids.

Definition discovery_breaks : Collaborators :=
  mkCollaborators
    (λ c, match c with
          | CallResolveDidcommServices _ => Some (OtherError "discovery")
          | _ => None
          end) uuids.

Definition R1 : ConnRecord := mkConnRecord "R1" (Some "did:example:old").

Definition received : RotateRecord :=
  mkRotateRecord ROLE_OBSERVING STATE_ROTATE_RECEIVED "R1"
                 (Some "did:example:new") (Some "thread-1").

Definition received_without_did : RotateRecord :=
  mkRotateRecord ROLE_OBSERVING STATE_ROTATE_RECEIVED "R1" None
                 (Some "thread-1").

Definition incoming : Rotate := mkRotate "thread-1" "did:example:new".

(** A world with [R1] at reference 0 and one rotate record at reference 0. *)
Definition world_with (record : RotateRecord) : World :=
  mkWorld [] 0 {[ 0 := R1 ]} {[ 0 := record ]}.

Definition empty_world : World := mkWorld [] 0 ∅ ∅.

Import ProblemReport.

Definition report_without_code : dict value :=
  [("description", VDict [("en", "Connection is gone")])].

Definition report_unknown_code : dict value :=
  [("description", VDict [("en", "Connection is gone");
                          ("code", "connection_gone")])].

Definition report_only_code : dict value :=
  [("description", VDict [("code", "connection_gone")])].

Definition report_known_code : dict value :=
  [("description", VDict [("code", "no_existing_connection")])].

Definition report_code_first : dict value :=
  [("description", VDict [("code", "connection_gone");
                          ("en", "Connection is gone");
                          ("fr", "La connexion a disparu")])].

(** Decorators of a message, as [to_dict] gives them. *)
Definition threaded : dict (dict string) :=
  [("~thread", [("thid", "thread-1"); ("pthid", "invitation-1")])].

Definition half_threaded : dict (dict string) :=
  [("~thread", [("thid", "thread-1")])].

End Sample.

(** ** Properties of the manager *)

Import Manager.

(** *** Proof support *)

Lemma new_calls_app w w' t : trace w' = trace w ++ t → new_calls w w' = t.
Proof. intros E. unfold new_calls. rewrite E. apply drop_app_length. Qed.

Ltac unfold_monad :=
  unfold new_Rotate, new_RotateAck, method_unsupported, unresolvable,
    get_conn, get_record, set_record_state, set_conn_their_did,
    fresh_message_id, call, raise, try_except,
    with_state, with_thread_id, with_their_did, assign_thread_id,
    set_trace, set_next_uuid, set_conns, set_records,
    mbind, M_bind, mret, M_ret in *.

(** Brings [trace w' = trace w ++ added] goals to a normal form. *)
Ltac trace_norm := cbn; rewrite <- ?app_assoc; cbn.



(** C6, as the code has it.  [rotate_my_did] builds one record with role
    ROTATING, state SENT, the connection's id, the given new DID and the id
    of the Rotate message as thread id.  In every run it makes exactly one
    transport send, of the Rotate whose [to_did] is the new DID, and leaves
    the object heap alone.  Provided that send returns, it then hands
    exactly that record to storage, after the send; when the save returns
    as well, the operation returns. *)
Theorem rotate_my_did_sends_then_saves
    (env : Collaborators) (conn : ConnRecord) (did : string) (w : World) :
  let cid := conn_connection_id conn in
  let rot := mkRotate (uuid4 env (next_uuid w)) did in
  let rec := mkRotateRecord ROLE_ROTATING STATE_ROTATE_SENT cid (Some did)
                            (Some (rotate_message_id rot)) in
  let out := (rotate_my_did env conn did w).1 in
  let w' := (rotate_my_did env conn did w).2 in
  sent_messages (new_calls w w') = [(MsgRotate rot, cid)] ∧
  conns w' = conns w ∧
  records w' = records w ∧
  (perform env (CallSend (MsgRotate rot) cid) = None →
     trace w' = trace w ++ [CallSend (MsgRotate rot) cid;
                            CallSaveRecord rec "Sent rotate message" None] ∧
     saved_records (new_calls w w') = [rec] ∧
     (perform env (CallSaveRecord rec "Sent rotate message" None) = None →
        out = Returned tt)).
Proof.
  intros cid rot rec out w'. subst cid rot rec out w'.
  unfold rotate_my_did. unfold_monad. cbn.
  destruct (perform env (CallSend _ _)) as [e|] eqn:Hsend; cbn.
  - erewrite new_calls_app by (cbn; reflexivity).
    repeat split; discriminate.
  - destruct (perform env (CallSaveRecord _ _ _)) as [e|] eqn:Hsave; cbn;
      (erewrite new_calls_app by (trace_norm; reflexivity));
      repeat split; try (by trace_norm); intros; discriminate.
Qed.

(** *** [commit_rotate], step by step *)

Lemma truthy_Some (s : option string) (d : string) :
  truthy s = Some d ↔ s = Some d ∧ d ≠ "".
Proof.
  destruct s as [[|a s]|]; cbn; split.
  - discriminate.
  - intros [E H]. inversion E; subst. congruence.
  - intros E. inversion E; subst. split; [reflexivity | discriminate].
  - intros [E _]. exact E.
  - discriminate.
  - intros [E _]. discriminate.
Qed.

Lemma commit_rotate_no_new_did env c r w record :
  records w !! r = Some record →
  truthy (new_did record) = None →
  commit_rotate env c r w =
    (Raised (ValueError "No new DID stored in record"),
     set_records (<[r := with_state STATE_ACK_SENT record]> (records w)) w).
Proof.
  intros Hr Ht. unfold commit_rotate. unfold_monad.
  rewrite Hr. cbn. rewrite lookup_insert_eq. cbn. rewrite Ht. reflexivity.
Qed.

Lemma commit_rotate_run env c r w conn record did :
  conns w !! c = Some conn →
  records w !! r = Some record →
  truthy (new_did record) = Some did →
  ∃ (k : nat) out w',
    commit_rotate env c r w = (out, w') ∧
    1 ≤ k ≤ 4 ∧
    trace w' = trace w ++ take k (commit_steps env w conn record did) ∧
    records w' = <[r := with_state STATE_ACK_SENT record]> (records w) ∧
    (k = 1 → conns w' = conns w ∧ perform env (CallRecordKeys did) ≠ None) ∧
    (2 ≤ k → conns w' = <[c := with_their_did (new_did record) conn]> (conns w)
             ∧ perform env (CallRecordKeys did) = None) ∧
    (k < 4 → ∃ e, out = Raised e) ∧
    (out = Returned tt → k = 4).
Proof.
  intros Hc Hr Ht. unfold commit_rotate, commit_steps. unfold_monad.
  rewrite Hr. cbn. rewrite lookup_insert_eq. cbn. rewrite Ht. cbn.
  destruct (perform env (CallRecordKeys did)) as [e|] eqn:HK.
  { exists 1.
    destruct e; cbn; do 2 eexists; (split; [reflexivity|]);
      repeat split; cbn; try lia; try congruence; eauto. }
  cbn. rewrite lookup_insert_eq. cbn. rewrite Hc. cbn.
  repeat (rewrite lookup_insert_eq; cbn).
  match goal with |- context [perform env (CallSend ?m ?i)] =>
    destruct (perform env (CallSend m i)) as [e|] eqn:HS end.
  { exists 2. do 2 eexists. split; [reflexivity|].
    repeat split; trace_norm; try lia; try congruence; eauto. }
  cbn. repeat (rewrite lookup_insert_eq; cbn).
  match goal with |- context [perform env (CallSaveConn ?o ?s ?b)] =>
    destruct (perform env (CallSaveConn o s b)) as [e|] eqn:HC end.
  { exists 3. do 2 eexists. split; [reflexivity|].
    repeat split; trace_norm; try lia; try congruence; eauto. }
  cbn. repeat (rewrite lookup_insert_eq; cbn).
  match goal with |- context [perform env (CallSaveRecord ?o ?s ?b)] =>
    destruct (perform env (CallSaveRecord o s b)) as [e|] eqn:HR end.
  { exists 4. do 2 eexists. split; [reflexivity|].
    repeat split; trace_norm; try lia; try congruence; eauto. }
  exists 4. do 2 eexists. split; [reflexivity|].
  repeat split; trace_norm; try lia; try congruence; eauto.
Qed.

(** C1.  When the key-recording step of [commit_rotate] fails, the commit
    ends with [DIDRotateManagerError], which is not a reportable error; the
    connection objects, hence [conn.their_did], are as before; key recording
    is the only collaborator call made, so no RotateAck (no message at all)
    is sent. *)
Theorem commit_rotate_key_recording_failure
    (env : Collaborators) (c r : nat) (w : World)
    (conn : ConnRecord) (record : RotateRecord) (did msg : string) :
  conns w !! c = Some conn →
  records w !! r = Some record →
  new_did record = Some did →
  did ≠ "" →
  perform env (CallRecordKeys did) = Some (BaseConnectionManagerError msg) →
  ∃ e w',
    commit_rotate env c r w = (Raised e, w') ∧
    e = DIDRotateManagerError "Unable to record keys for resolvable DID" ∧
    as_ReportableDIDRotateError e = None ∧
    conns w' = conns w ∧
    their_did <$> conns w' !! c = Some (their_did conn) ∧
    new_calls w w' = [CallRecordKeys did] ∧
    sent_messages (new_calls w w') = [].
Proof.
  intros Hc Hr Hd Hne HK.
  assert (Ht : truthy (new_did record) = Some did) by by apply truthy_Some.
  do 2 eexists. split.
  - unfold commit_rotate. unfold_monad.
    rewrite Hr. cbn. rewrite lookup_insert_eq. cbn. rewrite Ht. cbn.
    rewrite HK. reflexivity.
  - cbn. rewrite Hc.
    erewrite new_calls_app by (trace_norm; reflexivity).
    repeat split.
Qed.

(** C2.  For a record with a non-empty new DID and collaborators that all
    succeed, [commit_rotate] returns; afterwards the connection's
    [their_did] is the record's new DID, the record's state is ACK_SENT
    (in the object and in the snapshot saved), and exactly one message was
    sent: a RotateAck whose thread id is the record's thread id, to the
    connection. *)
Theorem commit_rotate_success
    (env : Collaborators) (c r : nat) (w : World)
    (conn : ConnRecord) (record : RotateRecord) (did : string) :
  conns w !! c = Some conn →
  records w !! r = Some record →
  new_did record = Some did →
  did ≠ "" →
  (∀ call, perform env call = None) →
  ∃ w' ack,
    commit_rotate env c r w = (Returned tt, w') ∧
    conns w' !! c = Some (with_their_did (Some did) conn) ∧
    records w' !! r = Some (with_state STATE_ACK_SENT record) ∧
    ack_thid ack = thread_id record ∧
    sent_messages (new_calls w w')
      = [(MsgRotateAck ack, conn_connection_id conn)] ∧
    saved_records (new_calls w w') = [with_state STATE_ACK_SENT record] ∧
    trace w' = trace w ++ commit_steps env w conn record did.
Proof.
  intros Hc Hr Hd Hne Hok.
  assert (Ht : truthy (new_did record) = Some did) by by apply truthy_Some.
  eexists. exists (mkRotateAck (uuid4 env (next_uuid w)) (thread_id record)).
  split.
  - unfold commit_rotate. unfold_monad.
    rewrite Hr. cbn. rewrite lookup_insert_eq. cbn. rewrite Ht. cbn.
    repeat (first [rewrite lookup_insert_eq | rewrite Hok | rewrite Hc]; cbn).
    reflexivity.
  - cbn. rewrite !lookup_insert_eq, Hd.
    erewrite new_calls_app by (trace_norm; reflexivity).
    unfold commit_steps. trace_norm.
    repeat split; unfold with_state, with_their_did; rewrite ?Hd; reflexivity.
Qed.

(** C3, as the code has it.  [commit_rotate] assigns ACK_SENT to the record
    object on entry, before any check, so the object carries ACK_SENT
    however the commit ends.  With no new DID the commit raises [ValueError]
    and calls no collaborator.  Otherwise the collaborator calls are a
    prefix of: key recording, send of the RotateAck, save of the connection,
    save of the record; [conn.their_did] is assigned between the first and
    the second; the record is handed to storage only by the last call, so a
    commit stopped earlier (in particular by a key-recording failure) has
    saved no record. *)
Theorem commit_rotate_step_order
    (env : Collaborators) (c r : nat) (w : World)
    (conn : ConnRecord) (record : RotateRecord) :
  conns w !! c = Some conn →
  records w !! r = Some record →
  ∃ out w',
    commit_rotate env c r w = (out, w') ∧
    records w' = <[r := with_state STATE_ACK_SENT record]> (records w) ∧
    match truthy (new_did record) with
    | None =>
        out = Raised (ValueError "No new DID stored in record") ∧
        new_calls w w' = [] ∧
        conns w' = conns w
    | Some did =>
        ∃ k : nat,
          1 ≤ k ≤ 4 ∧
          new_calls w w' = take k (commit_steps env w conn record did) ∧
          (perform env (CallRecordKeys did) ≠ None → k = 1) ∧
          (k = 1 → conns w' = conns w) ∧
          (2 ≤ k →
             conns w' = <[c := with_their_did (new_did record) conn]> (conns w)) ∧
          (k < 4 → saved_records (new_calls w w') = [] ∧ ∃ e, out = Raised e) ∧
          (out = Returned tt →
             k = 4 ∧
             saved_records (new_calls w w')
               = [with_state STATE_ACK_SENT record])
    end.
Proof.
  intros Hc Hr.
  destruct (truthy (new_did record)) as [did|] eqn:Ht.
  - destruct (commit_rotate_run env c r w conn record did Hc Hr Ht)
      as (k & out & w' & Hrun & Hk & Htr & Hrec & H1 & H2 & Hlt & Hret).
    exists out, w'. split; [exact Hrun|]. split; [exact Hrec|].
    exists k. rewrite (new_calls_app _ _ _ Htr).
    split; [exact Hk|]. split; [reflexivity|].
    split.
    { intros Hne. destruct (decide (k = 1)) as [|Hk1]; [assumption|].
      exfalso. apply Hne, H2. lia. }
    split; [intros E; apply (H1 E)|].
    split; [intros E; apply (H2 E)|].
    split.
    { intros Hk4. split; [|exact (Hlt Hk4)].
      destruct k as [|[|[|[|k]]]]; try lia; reflexivity. }
    intros E. specialize (Hret E). subst k. split; reflexivity.
  - eexists _, _. split; [apply (commit_rotate_no_new_did env c r w record Hr Ht)|].
    cbn. split; [reflexivity|]. split; [reflexivity|].
    split; [|reflexivity].
    apply new_calls_app. cbn. by rewrite app_nil_r.
Qed.

(** C8.  Every [commit_rotate] that returns has saved the connection exactly
    once, with [event=False], and the snapshot saved carries the record's
    new DID as [their_did]. *)
Theorem commit_rotate_saves_connection_without_event
    (env : Collaborators) (c r : nat) (w w' : World)
    (conn : ConnRecord) (record : RotateRecord) :
  conns w !! c = Some conn →
  records w !! r = Some record →
  commit_rotate env c r w = (Returned tt, w') →
  saved_conns (new_calls w w')
    = [(with_their_did (new_did record) conn, Some false)].
Proof.
  intros Hc Hr Hrun.
  destruct (truthy (new_did record)) as [did|] eqn:Ht.
  - destruct (commit_rotate_run env c r w conn record did Hc Hr Ht)
      as (k & out & w1 & Hrun1 & Hk & Htr & _ & _ & _ & _ & Hret).
    rewrite Hrun in Hrun1. inversion Hrun1; subst out w1.
    rewrite (Hret eq_refl) in Htr.
    rewrite (new_calls_app _ _ _ Htr). reflexivity.
  - rewrite (commit_rotate_no_new_did env c r w record Hr Ht) in Hrun.
    discriminate.
Qed.

(** *** Validation *)

(** What [ensure_supported_did] can do to the world: it calls the resolver
    and possibly service discovery, and nothing else. *)
Lemma ensure_supported_did_calls env did w :
  ∃ t,
    trace (ensure_supported_did env did w).2 = trace w ++ t ∧
    (t = [CallResolve did] ∨
     t = [CallResolve did; CallResolveDidcommServices did]) ∧
    conns (ensure_supported_did env did w).2 = conns w ∧
    records (ensure_supported_did env did w).2 = records w.
Proof.
  unfold ensure_supported_did. unfold_monad.
  destruct (perform env (CallResolve did)) as [e|].
  - exists [CallResolve did]. destruct e; cbn; auto.
  - exists [CallResolve did; CallResolveDidcommServices did]. cbn.
    destruct (perform env (CallResolveDidcommServices did)) as [e|];
      [destruct e|]; trace_norm; auto.
Qed.

Lemma ensure_supported_did_quiet env did w out w1 :
  ensure_supported_did env did w = (out, w1) →
  ∃ t, trace w1 = trace w ++ t ∧
       sent_messages t = [] ∧ saved_records t = [] ∧ saved_conns t = [].
Proof.
  intros E.
  destruct (ensure_supported_did_calls env did w) as (t & Ht & Hcase & _).
  rewrite E in Ht. exists t. split; [exact Ht|].
  destruct Hcase; subst t; repeat split.
Qed.

(** The three failures of validation that the manager names. *)
Lemma ensure_supported_did_method_unsupported env did w :
  perform env (CallResolve did) = Some DIDMethodNotSupported →
  ensure_supported_did env did w =
    (Raised (UnsupportedDIDMethodError
               (mkRotateProblemReport (uuid4 env (next_uuid w))
                                      METHOD_UNSUPPORTED did)),
     mkWorld (trace w ++ [CallResolve did]) (S (next_uuid w))
             (conns w) (records w)).
Proof.
  intros HR. unfold ensure_supported_did. unfold_monad. by rewrite HR.
Qed.

Lemma ensure_supported_did_not_found env did w :
  perform env (CallResolve did) = Some DIDNotFound →
  ensure_supported_did env did w =
    (Raised (UnresolvableDIDError
               (mkRotateProblemReport (uuid4 env (next_uuid w))
                                      UNRESOLVABLE did)),
     mkWorld (trace w ++ [CallResolve did]) (S (next_uuid w))
             (conns w) (records w)).
Proof.
  intros HR. unfold ensure_supported_did. unfold_monad. by rewrite HR.
Qed.

Lemma ensure_supported_did_services_fail env did w msg :
  perform env (CallResolve did) = None →
  perform env (CallResolveDidcommServices did)
    = Some (BaseConnectionManagerError msg) →
  ensure_supported_did env did w =
    (Raised (DIDRotateManagerError
               "Unable to resolve DIDComm services for DID"),
     mkWorld (trace w ++ [CallResolve did; CallResolveDidcommServices did])
             (next_uuid w) (conns w) (records w)).
Proof.
  intros HR HS. unfold ensure_supported_did. unfold_monad.
  rewrite HR. cbn. rewrite HS. cbn. by rewrite <- app_assoc.
Qed.

(** C5.  [ensure_supported_did] checks in two stages.  If the resolver raises
    [DIDMethodNotSupported] the result is the reportable
    [UnsupportedDIDMethodError], carrying a method-unsupported report about
    the DID; if it raises [DIDNotFound] the result is the reportable
    [UnresolvableDIDError], carrying an unresolvable report; in both cases,
    and whenever resolution raises, service discovery is not called.  Only
    when resolution returns is service discovery called, and its failure is
    a plain [DIDRotateManagerError], which carries no report. *)
Theorem ensure_supported_did_two_stage
    (env : Collaborators) (did : string) (w : World) :
  let out := (ensure_supported_did env did w).1 in
  let w' := (ensure_supported_did env did w).2 in
  (perform env (CallResolve did) = Some DIDMethodNotSupported →
     ∃ m, out = Raised (UnsupportedDIDMethodError m) ∧
          as_ReportableDIDRotateError (UnsupportedDIDMethodError m) = Some m ∧
          report_code m = METHOD_UNSUPPORTED ∧ report_did m = did) ∧
  (perform env (CallResolve did) = Some DIDNotFound →
     ∃ m, out = Raised (UnresolvableDIDError m) ∧
          as_ReportableDIDRotateError (UnresolvableDIDError m) = Some m ∧
          report_code m = UNRESOLVABLE ∧ report_did m = did) ∧
  (perform env (CallResolve did) ≠ None →
     new_calls w w' = [CallResolve did] ∧
     service_discoveries (new_calls w w') = [] ∧
     ∃ e, out = Raised e) ∧
  (perform env (CallResolve did) = None →
     new_calls w w' = [CallResolve did; CallResolveDidcommServices did] ∧
     service_discoveries (new_calls w w') = [did] ∧
     (perform env (CallResolveDidcommServices did) = None →
        out = Returned tt) ∧
     (∀ msg,
        perform env (CallResolveDidcommServices did)
          = Some (BaseConnectionManagerError msg) →
        ∃ e, out = Raised e ∧
             e = DIDRotateManagerError
                   "Unable to resolve DIDComm services for DID" ∧
             as_ReportableDIDRotateError e = None)).
Proof.
  cbn zeta. unfold ensure_supported_did. unfold_monad.
  destruct (perform env (CallResolve did)) as [e|] eqn:HR.
  - split; [|split; [|split]].
    + intros E. inversion E; subst e. cbn. eexists. repeat split.
    + intros E. inversion E; subst e. cbn. eexists. repeat split.
    + intros _.
      destruct e; cbn;
        (erewrite new_calls_app by (trace_norm; reflexivity));
        repeat split; eauto.
    + discriminate.
  - split; [discriminate|]. split; [discriminate|].
    split; [congruence|]. intros _. cbn.
    destruct (perform env (CallResolveDidcommServices did)) as [e|] eqn:HS.
    + destruct e; cbn;
        (erewrite new_calls_app by (trace_norm; reflexivity));
        repeat split; try discriminate;
        intros msg' E; inversion E; eexists; repeat split.
    + cbn. erewrite new_calls_app by (trace_norm; reflexivity).
      repeat split; intros; discriminate.
Qed.

(** C4, as the code has it.  When validation of the received [to_did] ends
    with a reportable error, [receive_rotate] makes exactly one send: the
    report carried by that error, to the connection the Rotate came from.
    Provided that send returns, the validation error goes no further and
    the record built on entry, with role OBSERVING and state RECEIVED, is
    handed to storage; when the save returns as well, [receive_rotate]
    returns normally, and otherwise it ends with the storage exception.
    The report says unresolvable when the resolver did not find the DID and
    method-unsupported when the resolver does not know its method. *)
Theorem receive_rotate_reportable_failure
    (env : Collaborators) (conn : ConnRecord) (rotate : Rotate)
    (w w1 : World) (e : exn) (report : RotateProblemReport) :
  let cid := conn_connection_id conn in
  let record :=
    mkRotateRecord ROLE_OBSERVING STATE_ROTATE_RECEIVED cid
                   (Some (to_did rotate)) (Some (rotate_message_id rotate)) in
  let out := (receive_rotate env conn rotate w).1 in
  let w' := (receive_rotate env conn rotate w).2 in
  ensure_supported_did env (to_did rotate) w = (Raised e, w1) →
  as_ReportableDIDRotateError e = Some report →
  sent_messages (new_calls w w') = [(MsgProblemReport report, cid)] ∧
  (perform env (CallSend (MsgProblemReport report) cid) = None →
     trace w' = trace w1 ++
       [CallSend (MsgProblemReport report) cid;
        CallSaveRecord record "Received rotate message" None] ∧
     saved_records (new_calls w w') = [record] ∧
     role record = ROLE_OBSERVING ∧
     state record = STATE_ROTATE_RECEIVED ∧
     (perform env (CallSaveRecord record "Received rotate message" None)
        = None →
      out = Returned tt) ∧
     (∀ e', perform env (CallSaveRecord record "Received rotate message" None)
              = Some e' →
            out = Raised e')) ∧
  (perform env (CallResolve (to_did rotate)) = Some DIDNotFound →
     report_code report = UNRESOLVABLE) ∧
  (perform env (CallResolve (to_did rotate)) = Some DIDMethodNotSupported →
     report_code report = METHOD_UNSUPPORTED).
Proof.
  intros cid record out w' Hens Hrep. subst cid record out w'.
  destruct (ensure_supported_did_quiet _ _ _ _ _ Hens)
    as (t & Ht & Hts & Htr & _).
  assert (Hrun :
    receive_rotate env conn rotate w =
      match perform env (CallSend (MsgProblemReport report)
                                  (conn_connection_id conn)) with
      | Some e' =>
          (Raised e',
           mkWorld (trace w1 ++
                      [CallSend (MsgProblemReport report)
                                (conn_connection_id conn)])
                   (next_uuid w1) (conns w1) (records w1))
      | None =>
          (match perform env
                   (CallSaveRecord
                      (mkRotateRecord ROLE_OBSERVING STATE_ROTATE_RECEIVED
                         (conn_connection_id conn) (Some (to_did rotate))
                         (Some (rotate_message_id rotate)))
                      "Received rotate message" None) with
           | Some e' => Raised e'
           | None => Returned tt
           end,
           mkWorld (trace w1 ++
                      [CallSend (MsgProblemReport report)
                                (conn_connection_id conn);
                       CallSaveRecord
                         (mkRotateRecord ROLE_OBSERVING STATE_ROTATE_RECEIVED
                            (conn_connection_id conn) (Some (to_did rotate))
                            (Some (rotate_message_id rotate)))
                         "Received rotate message" None])
                   (next_uuid w1) (conns w1) (records w1))
      end).
  { unfold receive_rotate. unfold try_except, mbind, M_bind.
    rewrite Hens, Hrep. unfold_monad.
    destruct (perform env (CallSend _ _)); [reflexivity|]. cbn.
    destruct (perform env (CallSaveRecord _ _ _)); trace_norm; reflexivity. }
  rewrite Hrun. clear Hrun.
  split; [|split; [|split]].
  - destruct (perform env (CallSend _ _)); cbn;
      (erewrite new_calls_app by (cbn; rewrite Ht, <- !app_assoc; reflexivity));
      unfold sent_messages in *; by rewrite omap_app, Hts.
  - intros Hsend. rewrite Hsend. cbn.
    erewrite new_calls_app by (cbn; rewrite Ht, <- !app_assoc; reflexivity).
    unfold saved_records in *. rewrite omap_app, Htr. cbn.
    repeat split.
    + intros Hsave. by rewrite Hsave.
    + intros e' Hsave. by rewrite Hsave.
  - intros HR.
    rewrite (ensure_supported_did_not_found _ _ _ HR) in Hens.
    inversion Hens; subst e. cbn in Hrep. by inversion Hrep; subst.
  - intros HR.
    rewrite (ensure_supported_did_method_unsupported _ _ _ HR) in Hens.
    inversion Hens; subst e. cbn in Hrep. by inversion Hrep; subst.
Qed.

(** C9.  When validation of the received [to_did] ends with an error that is
    not reportable, [receive_rotate] ends with that same error, in the world
    validation left: nothing was sent and no record was saved.  A
    service-discovery failure after a successful resolution is such an
    error. *)
Theorem receive_rotate_non_reportable_failure
    (env : Collaborators) (conn : ConnRecord) (rotate : Rotate)
    (w w1 : World) (e : exn) :
  ensure_supported_did env (to_did rotate) w = (Raised e, w1) →
  as_ReportableDIDRotateError e = None →
  receive_rotate env conn rotate w = (Raised e, w1) ∧
  sent_messages (new_calls w w1) = [] ∧
  saved_records (new_calls w w1) = [] ∧
  (perform env (CallResolve (to_did rotate)) = None →
   ∀ msg,
     perform env (CallResolveDidcommServices (to_did rotate))
       = Some (BaseConnectionManagerError msg) →
     e = DIDRotateManagerError "Unable to resolve DIDComm services for DID").
Proof.
  intros Hens Hrep.
  destruct (ensure_supported_did_quiet _ _ _ _ _ Hens)
    as (t & Ht & Hts & Htr & _).
  split.
  { unfold receive_rotate.
    unfold try_except, mbind, M_bind. rewrite Hens, Hrep. reflexivity. }
  rewrite (new_calls_app _ _ _ Ht).
  split; [exact Hts|]. split; [exact Htr|].
  intros HR msg HS.
  rewrite (ensure_supported_did_services_fail _ _ _ _ HR HS) in Hens.
  congruence.
Qed.

(** ** Properties of problem-report validation *)

Module ProblemReportFacts.

Import ProblemReport.

Ltac unfold_validate :=
  unfold validate_fields, description_code, value_get, value_keys, remove,
    index, warning, throw, mbind, V_bind, mret, V_ret.

Lemma list_remove_first_key {V} (d : dict V) (k : string) (v : V) :
  dict_get d k = Some v → is_Some (list_remove_first k (dict_keys d)).
Proof.
  induction d as [|[k' v'] d IH]; cbn; [discriminate|].
  destruct (decide (k' = k)); [eauto|].
  intros H. destruct (IH H) as [l Hl]. unfold dict_keys in Hl.
  rewrite Hl. eauto.
Qed.

Lemma list_remove_first_keeps (x k : string) (l l' : list string) :
  list_remove_first x l = Some l' → k ∈ l → k ≠ x → k ∈ l'.
Proof.
  revert l'. induction l as [|y l IH]; cbn; intros l' H Hin Hne.
  - discriminate.
  - destruct (decide (y = x)) as [->|Hy].
    + inversion H; subst. apply elem_of_cons in Hin as [->|]; done.
    + destruct (list_remove_first x l) as [l0|]; [|discriminate].
      inversion H; subst. apply elem_of_cons in Hin as [->|Hin].
      * apply elem_of_cons; by left.
      * apply elem_of_cons; right. by apply IH.
Qed.

(** The [elif] branch, for a description with a non-empty code outside the
    enumeration. *)
Lemma validate_fields_unknown_code_branch data d code log :
  dict_get data "description" = Some (VDict d) →
  dict_get d "code" = Some code →
  code ≠ "" →
  code ∉ reason_values →
  validate_fields data log =
    match list_remove_first "code" (dict_keys d) with
    | Some (k :: _) =>
        (inr tt, log ++ [unexpected_code_message (Some code) (dict_get d k)])
    | Some [] => (inl (IndexError "list index out of range"), log)
    | None => (inl (ValueError "list.remove(x): x not in list"), log)
    end.
Proof.
  intros Hdesc Hcode Hne Hnin. unfold_validate.
  rewrite Hdesc. cbn. rewrite Hcode. cbn.
  repeat case_decide; try done.
  cbn. destruct (list_remove_first "code" (dict_keys d)) as [[|k l]|];
    reflexivity.
Qed.

Lemma validate_fields_unknown_code_warns data d code log :
  dict_get data "description" = Some (VDict d) →
  dict_get d "code" = Some code →
  code ≠ "" →
  code ∉ reason_values →
  (∃ k, k ∈ dict_keys d ∧ k ≠ "code") →
  ∃ k rest,
    list_remove_first "code" (dict_keys d) = Some (k :: rest) ∧
    validate_fields data log =
      (inr tt, log ++ [unexpected_code_message (Some code) (dict_get d k)]).
Proof.
  intros Hdesc Hcode Hne Hnin (k & Hk & Hkne).
  rewrite (validate_fields_unknown_code_branch _ _ _ _ Hdesc Hcode Hne Hnin).
  destruct (list_remove_first_key _ _ _ Hcode) as [l Hl]. rewrite Hl.
  pose proof (list_remove_first_keeps _ _ _ _ Hl Hk Hkne) as Hin.
  destruct l as [|k0 rest]; [by apply elem_of_nil in Hin|]. eauto.
Qed.

(** C7, as the code has it.  A report whose description has no [code], or
    an empty one, is rejected with [ValidationError] and nothing is logged.
    A report whose code is non-empty but outside the enumerated reasons, and
    whose description has another entry, is accepted, with one warning
    logged. *)
Theorem validate_fields_code_policy
    (data : dict value) (d : dict string) (log : list string) :
  dict_get data "description" = Some (VDict d) →
  (default "" (dict_get d "code") = "" →
     validate_fields data log =
       (inl (ValidationError "Value for description.code must be present"),
        log) ∧
     accepts data log = false) ∧
  (∀ code,
     dict_get d "code" = Some code →
     code ≠ "" →
     code ∉ reason_values →
     (∃ k, k ∈ dict_keys d ∧ k ≠ "code") →
     (∃ k, validate_fields data log =
             (inr tt,
              log ++ [unexpected_code_message (Some code) (dict_get d k)])) ∧
     accepts data log = true).
Proof.
  intros Hdesc. split.
  - intros Hcode.
    assert (E : validate_fields data log =
      (inl (ValidationError "Value for description.code must be present"),
       log)).
    { unfold_validate. rewrite Hdesc. cbn. rewrite Hcode. reflexivity. }
    split; [exact E|]. unfold accepts. by rewrite E.
  - intros code Hcode Hne Hnin Hother.
    destruct (validate_fields_unknown_code_warns _ _ _ log
                Hdesc Hcode Hne Hnin Hother) as (k & rest & _ & E).
    split; [eauto|]. unfold accepts. by rewrite E.
Qed.

(** C10.  For a description whose code is non-empty and outside the
    enumerated reasons: with another entry besides ["code"] the warning
    branch completes, logging the code and the text of the first remaining
    locale; with ["code"] as the only key the branch indexes the empty list
    and the method ends with [IndexError], logging nothing. *)
Theorem validate_fields_unknown_code_locales
    (data : dict value) (d : dict string) (code : string)
    (log : list string) :
  dict_get data "description" = Some (VDict d) →
  dict_get d "code" = Some code →
  code ≠ "" →
  code ∉ reason_values →
  ((∃ k, k ∈ dict_keys d ∧ k ≠ "code") →
     ∃ k rest,
       list_remove_first "code" (dict_keys d) = Some (k :: rest) ∧
       validate_fields data log =
         (inr tt,
          log ++ [unexpected_code_message (Some code) (dict_get d k)])) ∧
  (dict_keys d = ["code"] →
     validate_fields data log =
       (inl (IndexError "list index out of range"), log)).
Proof.
  intros Hdesc Hcode Hne Hnin. split.
  - by apply validate_fields_unknown_code_warns.
  - intros Hkeys.
    rewrite (validate_fields_unknown_code_branch _ _ _ _ Hdesc Hcode Hne Hnin).
    by rewrite Hkeys.
Qed.

(** *** Concrete reports *)

(** A report without [description.code] is rejected, not merely warned
    about: the validator raises and logs nothing. *)
Lemma validate_fields_rejects_missing_code :
  validate_fields Sample.report_without_code []
    = (inl (ValidationError "Value for description.code must be present"), [])
  ∧ accepts Sample.report_without_code [] = false.
Proof. split; reflexivity. Qed.

Lemma validate_fields_code_policy_witness :
  accepts Sample.report_without_code [] = false ∧
  accepts Sample.report_unknown_code [] = true.
Proof.
  split.
  - apply (validate_fields_code_policy
             Sample.report_without_code [("en", "Connection is gone")] []
             eq_refl).
    reflexivity.
  - apply (proj2 (validate_fields_code_policy
                    Sample.report_unknown_code
                    [("en", "Connection is gone"); ("code", "connection_gone")]
                    [] eq_refl) "connection_gone").
    + reflexivity.
    + discriminate.
    + compute_done.
    + exists "en". split; [compute_done | discriminate].
Defined.

Lemma validate_fields_unknown_code_locales_witness :
  validate_fields Sample.report_unknown_code []
    = (inr tt,
       [unexpected_code_message (Some "connection_gone")
                                (Some "Connection is gone")])
  ∧ validate_fields Sample.report_only_code []
    = (inl (IndexError "list index out of range"), []).
Proof.
  split.
  - destruct (proj1 (validate_fields_unknown_code_locales
                       Sample.report_unknown_code
                       [("en", "Connection is gone");
                        ("code", "connection_gone")]
                       "connection_gone" [] eq_refl eq_refl
                       ltac:(discriminate) ltac:(compute_done)))
      as (k & rest & Hk & E).
    + exists "en". split; [compute_done | discriminate].
    + rewrite E. cbn in Hk. inversion Hk; subst. reflexivity.
  - apply (proj2 (validate_fields_unknown_code_locales
                    Sample.report_only_code [("code", "connection_gone")]
                    "connection_gone" [] eq_refl eq_refl
                    ltac:(discriminate) ltac:(compute_done))).
    reflexivity.
Defined.

(** *** Further properties of [validate_fields] and [check_thread_deco] *)

Lemma dict_keys_get {V} (d : dict V) (k : string) :
  k ∈ dict_keys d ↔ is_Some (dict_get d k).
Proof.
  unfold dict_keys. induction d as [|[k' v] d IH]; cbn.
  - split; [intros H; by apply elem_of_nil in H | intros [? ?]; discriminate].
  - rewrite elem_of_cons. destruct (decide (k' = k)) as [->|Hne].
    + split; eauto.
    + rewrite IH. split; [intros [?|?]; [congruence|done] | eauto].
Qed.

Lemma filter_other_id (x : string) (l : list string) :
  x ∉ l → filter (λ k, k ≠ x) l = l.
Proof.
  induction l as [|y l IH]; intros Hx; [done|].
  apply not_elem_of_cons in Hx as [Hne Hx].
  rewrite filter_cons_True by done. by rewrite IH.
Qed.

Lemma list_remove_first_filter (x : string) (l : list string) :
  NoDup l → x ∈ l →
  list_remove_first x l = Some (filter (λ k, k ≠ x) l).
Proof.
  induction l as [|y l IH]; intros Hnd Hin.
  - by apply elem_of_nil in Hin.
  - apply NoDup_cons in Hnd as [Hy Hnd]. cbn [list_remove_first].
    destruct (decide (y = x)) as [->|Hne].
    + rewrite filter_cons_False by (intros H; by apply H).
      by rewrite filter_other_id.
    + apply elem_of_cons in Hin as [->|Hin]; [done|].
      rewrite (IH Hnd Hin), filter_cons_True by done. reflexivity.
Qed.

Lemma validate_fields_code_missing data d log :
  dict_get data "description" = Some (VDict d) →
  default "" (dict_get d "code") = "" →
  validate_fields data log =
    (inl (ValidationError "Value for description.code must be present"), log).
Proof.
  intros Hdesc Hcode. unfold_validate. rewrite Hdesc. cbn.
  by rewrite Hcode.
Qed.

Lemma reason_values_nonempty code : code ∈ reason_values → code ≠ "".
Proof.
  intros Hin ->. revert Hin. compute_done.
Qed.

(** The [else] branch: the second test fails and nothing more is done. *)
Lemma validate_fields_else_branch data d code log :
  dict_get data "description" = Some (VDict d) →
  dict_get d "code" = Some code →
  code ≠ "" →
  ¬ (code ∉ reason_values) →
  validate_fields data log = (inr tt, log).
Proof.
  intros Hdesc Hcode Hne Hin.
  unfold_validate. rewrite Hdesc. cbn. rewrite Hcode. cbn.
  repeat case_decide; done.
Qed.

(** X1.  A report whose code is one of the enumerated reasons is accepted
    silently, whatever else its description holds: nothing is logged, and a
    description holding only the code is fine. *)
Theorem validate_fields_known_code
    (data : dict value) (d : dict string) (code : string)
    (log : list string) :
  dict_get data "description" = Some (VDict d) →
  dict_get d "code" = Some code →
  code ∈ reason_values →
  validate_fields data log = (inr tt, log).
Proof.
  intros Hdesc Hcode Hin.
  pose proof (reason_values_nonempty _ Hin) as Hne.
  unfold_validate. rewrite Hdesc. cbn. rewrite Hcode. cbn.
  repeat case_decide; done.
Qed.

(** X2.  Payloads without a [description] entry, or with an empty one, are
    rejected like those without a code: the default [{}] stands in for the
    missing description. *)
Theorem validate_fields_without_description
    (data : dict value) (log : list string) :
  dict_get data "description" = None ∨
  dict_get data "description" = Some (VDict []) →
  validate_fields data log =
    (inl (ValidationError "Value for description.code must be present"), log).
Proof.
  intros [H|H]; unfold_validate; rewrite H; reflexivity.
Qed.

(** X3.  On a payload whose description is a dict (or is absent),
    [validate_fields] ends in one of three ways: [ValidationError],
    [IndexError], or a normal return.  [locales.remove("code")] never raises
    and no attribute is missing.  The log only grows, by at most one
    warning, and only on a normal return. *)
Theorem validate_fields_outcomes
    (data : dict value) (log : list string) :
  (dict_get data "description" = None ∨
   ∃ d, dict_get data "description" = Some (VDict d)) →
  ((validate_fields data log).1
     = inl (ValidationError "Value for description.code must be present") ∧
   (validate_fields data log).2 = log) ∨
  ((validate_fields data log).1
     = inl (IndexError "list index out of range") ∧
   (validate_fields data log).2 = log) ∨
  ((validate_fields data log).1 = inr tt ∧
   ((validate_fields data log).2 = log ∨
    ∃ msg, (validate_fields data log).2 = log ++ [msg])).
Proof.
  intros [Hnone|[d Hdesc]].
  { left. unfold_validate. rewrite Hnone. done. }
  destruct (dict_get d "code") as [code|] eqn:Hcode.
  - destruct (decide (code = "")) as [->|Hne].
    + left. unfold_validate. rewrite Hdesc. cbn. rewrite Hcode. done.
    + destruct (decide (code ∈ reason_values)) as [Hin|Hnin].
      * right; right.
        rewrite (validate_fields_else_branch _ _ _ _ Hdesc Hcode Hne)
          by auto.
        auto.
      * rewrite (validate_fields_unknown_code_branch _ _ _ _
                   Hdesc Hcode Hne Hnin).
        destruct (list_remove_first_key _ _ _ Hcode) as [l Hl]. rewrite Hl.
        destruct l as [|k rest]; cbn; eauto 6.
  - left. unfold_validate. rewrite Hdesc. cbn. rewrite Hcode. done.
Qed.

(** X4.  Exactly which payloads pass: the description (a dict, keys held
    once) has a non-empty code, and either the code is an enumerated reason
    or the description has some entry besides the code. *)
Theorem validate_fields_accepts_iff
    (data : dict value) (d : dict string) (log : list string) :
  dict_get data "description" = Some (VDict d) →
  NoDup (dict_keys d) →
  accepts data log = true ↔
  ∃ code,
    dict_get d "code" = Some code ∧ code ≠ "" ∧
    (code ∈ reason_values ∨ ∃ k, k ∈ dict_keys d ∧ k ≠ "code").
Proof.
  intros Hdesc Hnd. unfold accepts. split.
  - intros Hacc.
    destruct (dict_get d "code") as [code|] eqn:Hcode.
    2:{ rewrite (validate_fields_code_missing _ _ _ Hdesc) in Hacc
          by (by rewrite Hcode).
        done. }
    destruct (decide (code = "")) as [->|Hne].
    { rewrite (validate_fields_code_missing _ _ _ Hdesc) in Hacc
        by (by rewrite Hcode).
      done. }
    exists code. split; [done|]. split; [done|].
    destruct (decide (code ∈ reason_values)) as [Hin|Hnin]; [by left|right].
    rewrite (validate_fields_unknown_code_branch _ _ _ _
               Hdesc Hcode Hne Hnin) in Hacc.
    assert (Hin : "code" ∈ dict_keys d) by (apply dict_keys_get; eauto).
    rewrite (list_remove_first_filter _ _ Hnd Hin) in Hacc.
    destruct (filter (λ k, k ≠ "code") (dict_keys d)) as [|k rest] eqn:Hf;
      [done|].
    assert (Hk : k ∈ filter (λ k, k ≠ "code") (dict_keys d))
      by (rewrite Hf; apply elem_of_cons; by left).
    apply list_elem_of_filter in Hk as [Hkne Hk]. eauto.
  - intros (code & Hcode & Hne & [Hin|Hother]).
    + by rewrite (validate_fields_else_branch _ _ _ _ Hdesc Hcode Hne)
        by auto.
    + destruct (decide (code ∈ reason_values)) as [Hin|Hnin].
      * by rewrite (validate_fields_else_branch _ _ _ _ Hdesc Hcode Hne)
          by auto.
      * destruct (validate_fields_unknown_code_warns _ _ _ log
                    Hdesc Hcode Hne Hnin Hother) as (k & rest & _ & E).
        by rewrite E.
Qed.

(** X5.  The warning for an unknown code quotes the description stored
    under the first key, in insertion order, other than ["code"]: the code
    itself is never printed as the description, and the text is a real
    entry of the dict. *)
Theorem validate_fields_warns_first_locale
    (data : dict value) (d : dict string) (code k : string)
    (rest log : list string) :
  dict_get data "description" = Some (VDict d) →
  NoDup (dict_keys d) →
  dict_get d "code" = Some code →
  code ≠ "" →
  code ∉ reason_values →
  filter (λ k, k ≠ "code") (dict_keys d) = k :: rest →
  ∃ text,
    dict_get d k = Some text ∧ k ≠ "code" ∧
    validate_fields data log =
      (inr tt, log ++ [unexpected_code_message (Some code) (Some text)]).
Proof.
  intros Hdesc Hnd Hcode Hne Hnin Hf.
  assert (Hk : k ∈ filter (λ k, k ≠ "code") (dict_keys d))
    by (rewrite Hf; apply elem_of_cons; by left).
  apply list_elem_of_filter in Hk as [Hkne Hk].
  apply dict_keys_get in Hk as [text Htext].
  exists text. split; [done|]. split; [done|].
  rewrite (validate_fields_unknown_code_branch _ _ _ _ Hdesc Hcode Hne Hnin).
  assert (Hin : "code" ∈ dict_keys d) by (apply dict_keys_get; eauto).
  by rewrite (list_remove_first_filter _ _ Hnd Hin), Hf, Htext.
Qed.

(** X6.  [check_thread_deco] lets a message through, unchanged, exactly when
    its decorators have a ["~thread"] entry holding both ["thid"] and
    ["pthid"]; every other message, one without a thread decorator included,
    ends in [ValidationError]. *)
Theorem check_thread_deco_requires_thid_and_pthid
    {O F : Type} (to_dict : O → dict (dict F)) (obj : O) :
  (check_thread_deco to_dict obj = inr obj ↔
   ∃ t, dict_get (to_dict obj) "~thread" = Some t ∧
        is_Some (dict_get t "thid") ∧ is_Some (dict_get t "pthid")) ∧
  (check_thread_deco to_dict obj ≠ inr obj →
   check_thread_deco to_dict obj
     = inl (ValidationError "Missing required field(s) in thread decorator")).
Proof.
  unfold check_thread_deco.
  destruct (dict_get (to_dict obj) "~thread") as [t|] eqn:Ht; cbn.
  - case_decide as Hsub.
    + split; [|done]. split; [intros _|done].
      exists t. split; [done|].
      rewrite <- !dict_keys_get.
      assert (H1 : "thid" ∈ (list_to_set (dict_keys t) : gset string))
        by (apply Hsub; set_solver).
      assert (H2 : "pthid" ∈ (list_to_set (dict_keys t) : gset string))
        by (apply Hsub; set_solver).
      by apply elem_of_list_to_set in H1, H2.
    + split; [|done]. split; [done|].
      intros (t' & E & H1 & H2). inversion E; subst t'. exfalso. apply Hsub.
      apply dict_keys_get in H1, H2.
      intros k Hk. apply elem_of_list_to_set.
      apply elem_of_union in Hk as [Hk|Hk]; apply elem_of_singleton in Hk;
        by subst k.
  - case_decide as Hsub.
    + exfalso. assert (H : "thid" ∈ (∅ : gset string))
        by (apply Hsub; set_solver).
      set_solver.
    + split; [|done]. split; [done|]. intros (t & E & _). discriminate.
Qed.

(** *** More concrete reports *)

Lemma validate_fields_known_code_witness :
  validate_fields Sample.report_known_code [] = (inr tt, []).
Proof.
  apply (validate_fields_known_code
           Sample.report_known_code [("code", "no_existing_connection")]
           "no_existing_connection" [] eq_refl eq_refl).
  compute_done.
Defined.

Lemma validate_fields_without_description_witness :
  validate_fields [] ["earlier warning"] =
    (inl (ValidationError "Value for description.code must be present"),
     ["earlier warning"]).
Proof.
  apply (validate_fields_without_description [] ["earlier warning"]).
  left. reflexivity.
Defined.

Lemma validate_fields_outcomes_witness :
  (validate_fields Sample.report_only_code []).1
    = inl (IndexError "list index out of range") ∧
  (validate_fields Sample.report_only_code []).2 = [].
Proof.
  destruct (validate_fields_outcomes Sample.report_only_code [])
    as [[H _]|[H|[H _]]].
  - right. eexists. reflexivity.
  - discriminate H.
  - exact H.
  - discriminate H.
Defined.

Lemma validate_fields_accepts_iff_witness :
  accepts Sample.report_code_first [] = true ∧
  accepts Sample.report_only_code [] = false.
Proof.
  split.
  - apply (proj2 (validate_fields_accepts_iff
                    Sample.report_code_first
                    [("code", "connection_gone");
                     ("en", "Connection is gone");
                     ("fr", "La connexion a disparu")] []
                    eq_refl ltac:(compute_done))).
    exists "connection_gone". split; [reflexivity|].
    split; [discriminate|]. right. exists "en".
    split; [compute_done | discriminate].
  - destruct (accepts Sample.report_only_code []) eqn:E; [|reflexivity].
    apply (proj1 (validate_fields_accepts_iff
                    Sample.report_only_code [("code", "connection_gone")] []
                    eq_refl ltac:(compute_done))) in E
      as (code & Hcode & _ & [Hin|(k & Hk & Hne)]).
    + inversion Hcode; subst code. exfalso. revert Hin. compute_done.
    + apply elem_of_cons in Hk as [Hk|Hk]; [done|]. by apply elem_of_nil in Hk.
Defined.

Lemma validate_fields_warns_first_locale_witness :
  validate_fields Sample.report_code_first [] =
    (inr tt,
     [unexpected_code_message (Some "connection_gone")
                              (Some "Connection is gone")]).
Proof.
  destruct (validate_fields_warns_first_locale
              Sample.report_code_first
              [("code", "connection_gone");
               ("en", "Connection is gone");
               ("fr", "La connexion a disparu")]
              "connection_gone" "en" ["fr"] []
              eq_refl ltac:(compute_done) eq_refl
              ltac:(discriminate) ltac:(compute_done) eq_refl)
    as (text & Htext & _ & E).
  inversion Htext; subst text. exact E.
Defined.

Lemma check_thread_deco_requires_thid_and_pthid_witness :
  check_thread_deco id Sample.threaded = inr Sample.threaded ∧
  check_thread_deco id Sample.half_threaded =
    inl (ValidationError "Missing required field(s) in thread decorator").
Proof.
  split.
  - apply (proj1 (check_thread_deco_requires_thid_and_pthid
                    id Sample.threaded)).
    eexists. split; [reflexivity|]. split; eexists; reflexivity.
  - apply (proj2 (check_thread_deco_requires_thid_and_pthid
                    id Sample.half_threaded)).
    intros H.
    apply (proj1 (check_thread_deco_requires_thid_and_pthid
                    id Sample.half_threaded)) in H
      as (t & E & _ & [v Hv]).
    inversion E; subst t. discriminate Hv.
Defined.

End ProblemReportFacts.

(** ** Concrete runs of the manager *)

Lemma rotate_my_did_sends_then_saves_witness :
  (rotate_my_did Sample.all_succeed Sample.R1 "did:example:new"
                 Sample.empty_world).1 = Returned tt ∧
  sent_messages
    (new_calls Sample.empty_world
       (rotate_my_did Sample.all_succeed Sample.R1 "did:example:new"
                      Sample.empty_world).2)
    = [(MsgRotate (mkRotate "0c5d8b1e-0000" "did:example:new"), "R1")] ∧
  saved_records
    (new_calls Sample.empty_world
       (rotate_my_did Sample.all_succeed Sample.R1 "did:example:new"
                      Sample.empty_world).2)
    = [mkRotateRecord ROLE_ROTATING STATE_ROTATE_SENT "R1"
                      (Some "did:example:new") (Some "0c5d8b1e-0000")].
Proof.
  destruct (rotate_my_did_sends_then_saves
              Sample.all_succeed Sample.R1 "did:example:new"
              Sample.empty_world)
    as (Hsent & _ & _ & Hsaved).
  destruct (Hsaved eq_refl) as (_ & Hrec & Hout).
  split; [exact (Hout eq_refl)|]. split; assumption.
Defined.

(** A Rotate that the responder cannot deliver: [rotate_my_did] raises and
    no record of the attempt reaches storage. *)
Lemma rotate_my_did_unsaved_when_send_raises :
  let run := rotate_my_did Sample.send_fails Sample.R1 "did:example:new"
                           Sample.empty_world in
  run.1 = Raised (OtherError "transport") ∧
  saved_records (new_calls Sample.empty_world run.2) = [] ∧
  new_calls Sample.empty_world run.2
    = [CallSend (MsgRotate (mkRotate "0c5d8b1e-0000" "did:example:new"))
                "R1"].
Proof. repeat split. Qed.

Lemma commit_rotate_key_recording_failure_witness :
  ∃ w',
    commit_rotate Sample.keys_fail 0 0 (Sample.world_with Sample.received)
      = (Raised (DIDRotateManagerError
                   "Unable to record keys for resolvable DID"), w') ∧
    their_did <$> conns w' !! 0 = Some (Some "did:example:old") ∧
    sent_messages (new_calls (Sample.world_with Sample.received) w') = [].
Proof.
  destruct (commit_rotate_key_recording_failure
              Sample.keys_fail 0 0 (Sample.world_with Sample.received)
              Sample.R1 Sample.received "did:example:new" "no keys"
              eq_refl eq_refl eq_refl ltac:(discriminate) eq_refl)
    as (e & w' & Hrun & -> & _ & _ & Hdid & _ & Hsent).
  exists w'. repeat split; assumption.
Defined.

Lemma commit_rotate_success_witness :
  ∃ w',
    commit_rotate Sample.all_succeed 0 0 (Sample.world_with Sample.received)
      = (Returned tt, w') ∧
    their_did <$> conns w' !! 0 = Some (Some "did:example:new") ∧
    state <$> records w' !! 0 = Some STATE_ACK_SENT ∧
    sent_messages (new_calls (Sample.world_with Sample.received) w')
      = [(MsgRotateAck (mkRotateAck "0c5d8b1e-0000" (Some "thread-1")), "R1")].
Proof.
  destruct (commit_rotate_success
              Sample.all_succeed 0 0 (Sample.world_with Sample.received)
              Sample.R1 Sample.received "did:example:new"
              eq_refl eq_refl eq_refl ltac:(discriminate) ltac:(reflexivity))
    as (w' & ack & Hrun & Hconn & Hrec & Hthid & Hsent & _ & Htr).
  exists w'. split; [exact Hrun|].
  rewrite Hconn, Hrec. repeat split.
  rewrite (new_calls_app _ _ _ Htr). reflexivity.
Defined.

(** A commit that fails its first check, on a record with no new DID: the
    record object nevertheless carries ACK_SENT afterwards, although nothing
    was saved. *)
Lemma commit_rotate_sets_state_before_checks :
  let w := Sample.world_with Sample.received_without_did in
  let run := commit_rotate Sample.all_succeed 0 0 w in
  run.1 = Raised (ValueError "No new DID stored in record") ∧
  state <$> records w !! 0 = Some STATE_ROTATE_RECEIVED ∧
  state <$> records run.2 !! 0 = Some STATE_ACK_SENT ∧
  state <$> records run.2 !! 0 ≠ state <$> records w !! 0 ∧
  new_calls w run.2 = [].
Proof. repeat split. discriminate. Qed.

(** The same after a key-recording failure. *)
Example commit_rotate_sets_state_before_key_recording :
  let w := Sample.world_with Sample.received in
  let run := commit_rotate Sample.keys_fail 0 0 w in
  run.1 = Raised (DIDRotateManagerError
                    "Unable to record keys for resolvable DID") ∧
  state <$> records run.2 !! 0 = Some STATE_ACK_SENT ∧
  saved_records (new_calls w run.2) = [].
Proof. repeat split. Qed.

Lemma commit_rotate_step_order_witness :
  ∃ out w',
    commit_rotate Sample.keys_fail 0 0 (Sample.world_with Sample.received)
      = (out, w') ∧
    state <$> records w' !! 0 = Some STATE_ACK_SENT ∧
    saved_records (new_calls (Sample.world_with Sample.received) w') = [].
Proof.
  destruct (commit_rotate_step_order
              Sample.keys_fail 0 0 (Sample.world_with Sample.received)
              Sample.R1 Sample.received eq_refl eq_refl)
    as (out & w' & Hrun & Hrec & k & Hk & Hcalls & Hfail & _ & _ & Hlt & _).
  exists out, w'. split; [exact Hrun|]. split.
  - rewrite Hrec. reflexivity.
  - assert (k = 1) as -> by (apply Hfail; discriminate).
    apply Hlt. lia.
Defined.

Lemma commit_rotate_saves_connection_without_event_witness :
  saved_conns
    (new_calls (Sample.world_with Sample.received)
       (commit_rotate Sample.all_succeed 0 0
                      (Sample.world_with Sample.received)).2)
  = [(mkConnRecord "R1" (Some "did:example:new"), Some false)].
Proof.
  apply (commit_rotate_saves_connection_without_event
           Sample.all_succeed 0 0 (Sample.world_with Sample.received) _
           Sample.R1 Sample.received eq_refl eq_refl eq_refl).
Defined.

Lemma ensure_supported_did_two_stage_witness :
  (∃ m, (ensure_supported_did Sample.method_not_supported "did:web:x"
                              Sample.empty_world).1
          = Raised (UnsupportedDIDMethodError m) ∧
        report_code m = METHOD_UNSUPPORTED) ∧
  (∃ m, (ensure_supported_did Sample.did_not_found "did:web:x"
                              Sample.empty_world).1
          = Raised (UnresolvableDIDError m) ∧
        report_code m = UNRESOLVABLE) ∧
  service_discoveries
    (new_calls Sample.empty_world
       (ensure_supported_did Sample.did_not_found "did:web:x"
                             Sample.empty_world).2) = [] ∧
  (∃ e, (ensure_supported_did Sample.services_fail "did:web:x"
                              Sample.empty_world).1 = Raised e ∧
        as_ReportableDIDRotateError e = None).
Proof.
  split; [|split; [|split]].
  - destruct (proj1 (ensure_supported_did_two_stage
                       Sample.method_not_supported "did:web:x"
                       Sample.empty_world) eq_refl)
      as (m & H1 & _ & H2 & _).
    exists m. split; assumption.
  - destruct (proj1 (proj2 (ensure_supported_did_two_stage
                       Sample.did_not_found "did:web:x"
                       Sample.empty_world)) eq_refl)
      as (m & H1 & _ & H2 & _).
    exists m. split; assumption.
  - apply (proj1 (proj2 (proj2 (ensure_supported_did_two_stage
                       Sample.did_not_found "did:web:x"
                       Sample.empty_world)))).
    discriminate.
  - destruct (proj2 (proj2 (proj2 (ensure_supported_did_two_stage
                       Sample.services_fail "did:web:x"
                       Sample.empty_world))) eq_refl)
      as (_ & _ & _ & H).
    destruct (H "no services" eq_refl) as (e & H1 & _ & H2).
    exists e. split; assumption.
Defined.

Lemma receive_rotate_reportable_failure_witness :
  (receive_rotate Sample.did_not_found Sample.R1 Sample.incoming
                  Sample.empty_world).1 = Returned tt ∧
  sent_messages
    (new_calls Sample.empty_world
       (receive_rotate Sample.did_not_found Sample.R1 Sample.incoming
                       Sample.empty_world).2)
    = [(MsgProblemReport
          (mkRotateProblemReport "0c5d8b1e-0000" UNRESOLVABLE
                                 "did:example:new"), "R1")] ∧
  saved_records
    (new_calls Sample.empty_world
       (receive_rotate Sample.did_not_found Sample.R1 Sample.incoming
                       Sample.empty_world).2)
    = [mkRotateRecord ROLE_OBSERVING STATE_ROTATE_RECEIVED "R1"
                      (Some "did:example:new") (Some "thread-1")].
Proof.
  destruct (receive_rotate_reportable_failure
              Sample.did_not_found Sample.R1 Sample.incoming
              Sample.empty_world _ _ _ eq_refl eq_refl)
    as (Hsent & Hsaved & _).
  destruct (Hsaved eq_refl) as (_ & Hrec & _ & _ & Hout & _).
  split; [exact (Hout eq_refl)|]. split; assumption.
Defined.

(** A Rotate whose DID is not found, over a responder that cannot deliver:
    validation ends with a reportable error, yet [receive_rotate] raises and
    no record of the attempt reaches storage. *)
Lemma receive_rotate_unsaved_when_send_raises :
  let validation :=
    ensure_supported_did Sample.not_found_and_send_fails "did:example:new"
                         Sample.empty_world in
  let run := receive_rotate Sample.not_found_and_send_fails Sample.R1
                            Sample.incoming Sample.empty_world in
  validation.1
    = Raised (UnresolvableDIDError
                (mkRotateProblemReport "0c5d8b1e-0000" UNRESOLVABLE
                                       "did:example:new")) ∧
  run.1 = Raised (OtherError "transport") ∧
  saved_records (new_calls Sample.empty_world run.2) = [].
Proof. repeat split. Qed.

Lemma receive_rotate_non_reportable_failure_witness :
  ∃ w',
    receive_rotate Sample.services_fail Sample.R1 Sample.incoming
                   Sample.empty_world
      = (Raised (DIDRotateManagerError
                   "Unable to resolve DIDComm services for DID"), w') ∧
    sent_messages (new_calls Sample.empty_world w') = [] ∧
    saved_records (new_calls Sample.empty_world w') = [].
Proof.
  destruct (receive_rotate_non_reportable_failure
              Sample.services_fail Sample.R1 Sample.incoming
              Sample.empty_world _ _ eq_refl eq_refl)
    as (Hrun & Hsent & Hsaved & _).
  eexists. repeat split; eassumption.
Defined.

(** ** Further properties of the manager *)

(** *** [commit_rotate], every path *)

(** What a commit with a usable new DID does, by the first collaborator call
    that raises. *)
Lemma commit_rotate_cases env c r w conn record did :
  conns w !! c = Some conn →
  records w !! r = Some record →
  truthy (new_did record) = Some did →
  let ack := mkRotateAck (uuid4 env (next_uuid w)) (thread_id record) in
  let conn' := with_their_did (new_did record) conn in
  let record' := with_state STATE_ACK_SENT record in
  let k1 := CallRecordKeys did in
  let k2 := CallSend (MsgRotateAck ack) (conn_connection_id conn) in
  let k3 := CallSaveConn conn' "Their DID rotated" (Some false) in
  let k4 := CallSaveRecord record' "Sent rotate ack" None in
  let recs := <[r := record']> (records w) in
  let cns := <[c := conn']> (conns w) in
  commit_rotate env c r w =
    match perform env k1 with
    | Some e =>
        (Raised match e with
                | BaseConnectionManagerError _ =>
                    DIDRotateManagerError
                      "Unable to record keys for resolvable DID"
                | _ => e
                end,
         mkWorld (trace w ++ [k1]) (next_uuid w) (conns w) recs)
    | None =>
        match perform env k2 with
        | Some e =>
            (Raised e,
             mkWorld (trace w ++ [k1; k2]) (S (next_uuid w)) cns recs)
        | None =>
            match perform env k3 with
            | Some e =>
                (Raised e,
                 mkWorld (trace w ++ [k1; k2; k3]) (S (next_uuid w)) cns recs)
            | None =>
                (match perform env k4 with
                 | Some e => Raised e
                 | None => Returned tt
                 end,
                 mkWorld (trace w ++ [k1; k2; k3; k4]) (S (next_uuid w))
                         cns recs)
            end
        end
    end.
Proof.
  intros Hc Hr Ht. cbn zeta. unfold commit_rotate. unfold_monad.
  rewrite Hr. cbn. rewrite lookup_insert_eq. cbn. rewrite Ht. cbn.
  destruct (perform env (CallRecordKeys did)) as [e|] eqn:HK.
  { destruct e; reflexivity. }
  cbn. rewrite lookup_insert_eq. cbn. rewrite Hc. cbn.
  repeat (rewrite lookup_insert_eq; cbn).
  match goal with |- context [perform env (CallSend ?m ?i)] =>
    destruct (perform env (CallSend m i)) as [e|] eqn:HS end.
  { trace_norm. reflexivity. }
  cbn. repeat (rewrite lookup_insert_eq; cbn).
  match goal with |- context [perform env (CallSaveConn ?o ?s ?b)] =>
    destruct (perform env (CallSaveConn o s b)) as [e|] eqn:HC end.
  { trace_norm. reflexivity. }
  cbn. repeat (rewrite lookup_insert_eq; cbn).
  match goal with |- context [perform env (CallSaveRecord ?o ?s ?b)] =>
    destruct (perform env (CallSaveRecord o s b)) as [e|] eqn:HR end;
    trace_norm; reflexivity.
Qed.

(** X7.  If the responder fails on the RotateAck, [commit_rotate] ends with
    that failure after it has already assigned the new DID to
    [conn.their_did]: the connection object carries the new DID, yet neither
    the connection nor the record was handed to storage. *)
Theorem commit_rotate_send_failure
    (env : Collaborators) (c r : nat) (w : World)
    (conn : ConnRecord) (record : RotateRecord) (did : string) (e : exn) :
  let ack := mkRotateAck (uuid4 env (next_uuid w)) (thread_id record) in
  conns w !! c = Some conn →
  records w !! r = Some record →
  new_did record = Some did →
  did ≠ "" →
  perform env (CallRecordKeys did) = None →
  perform env (CallSend (MsgRotateAck ack) (conn_connection_id conn))
    = Some e →
  ∃ w',
    commit_rotate env c r w = (Raised e, w') ∧
    conns w' !! c = Some (with_their_did (Some did) conn) ∧
    saved_conns (new_calls w w') = [] ∧
    saved_records (new_calls w w') = [].
Proof.
  intros ack Hc Hr Hd Hne HK HS. subst ack.
  assert (Ht : truthy (new_did record) = Some did) by by apply truthy_Some.
  rewrite (commit_rotate_cases env c r w conn record did Hc Hr Ht).
  cbn zeta. rewrite HK, HS. eexists. split; [reflexivity|].
  cbn. rewrite lookup_insert_eq, Hd.
  erewrite new_calls_app by (cbn; reflexivity).
  repeat split.
Qed.

(** X8.  Only [BaseConnectionManagerError] is translated: any other
    exception of the key-recording step leaves [commit_rotate] as it is,
    with the connection objects unchanged and no further collaborator
    call. *)
Theorem commit_rotate_key_recording_other_error
    (env : Collaborators) (c r : nat) (w : World)
    (conn : ConnRecord) (record : RotateRecord) (did : string) (e : exn) :
  conns w !! c = Some conn →
  records w !! r = Some record →
  new_did record = Some did →
  did ≠ "" →
  perform env (CallRecordKeys did) = Some e →
  (∀ msg, e ≠ BaseConnectionManagerError msg) →
  ∃ w',
    commit_rotate env c r w = (Raised e, w') ∧
    conns w' = conns w ∧
    new_calls w w' = [CallRecordKeys did].
Proof.
  intros Hc Hr Hd Hne HK Hother.
  assert (Ht : truthy (new_did record) = Some did) by by apply truthy_Some.
  rewrite (commit_rotate_cases env c r w conn record did Hc Hr Ht).
  cbn zeta. rewrite HK. eexists. split.
  - destruct e; try reflexivity. by destruct (Hother msg).
  - cbn. split; [reflexivity|]. by apply new_calls_app.
Qed.

(** X9.  [commit_rotate] writes to storage only after the RotateAck went
    out, and hands the record to storage only after the connection was
    saved: a saved ACK_SENT record always comes with a saved connection
    that carries the new DID. *)
Theorem commit_rotate_writes_after_ack
    (env : Collaborators) (c r : nat) (w : World)
    (conn : ConnRecord) (record : RotateRecord) (did : string) :
  let ack := mkRotateAck (uuid4 env (next_uuid w)) (thread_id record) in
  let conn' := with_their_did (Some did) conn in
  let w' := (commit_rotate env c r w).2 in
  conns w !! c = Some conn →
  records w !! r = Some record →
  new_did record = Some did →
  did ≠ "" →
  (saved_conns (new_calls w w') ≠ [] →
     perform env (CallRecordKeys did) = None ∧
     perform env (CallSend (MsgRotateAck ack) (conn_connection_id conn))
       = None) ∧
  (saved_records (new_calls w w') ≠ [] →
     perform env (CallSaveConn conn' "Their DID rotated" (Some false)) = None ∧
     saved_conns (new_calls w w') = [(conn', Some false)] ∧
     saved_records (new_calls w w') = [with_state STATE_ACK_SENT record]).
Proof.
  intros ack conn' w' Hc Hr Hd Hne. subst ack conn' w'.
  assert (Ht : truthy (new_did record) = Some did) by by apply truthy_Some.
  rewrite (commit_rotate_cases env c r w conn record did Hc Hr Ht).
  cbn zeta. rewrite Hd.
  destruct (perform env (CallRecordKeys did)) as [e|]; cbn.
  { erewrite new_calls_app by (cbn; reflexivity). cbn. split; done. }
  match goal with |- context [perform env (CallSend ?m ?i)] =>
    destruct (perform env (CallSend m i)) as [e|] end; cbn.
  { erewrite new_calls_app by (cbn; reflexivity). cbn. split; done. }
  match goal with |- context [perform env (CallSaveConn ?o ?s ?b)] =>
    destruct (perform env (CallSaveConn o s b)) as [e|] end; cbn.
  { erewrite new_calls_app by (cbn; reflexivity). cbn. split; done. }
  erewrite new_calls_app by (cbn; reflexivity). cbn. split; done.
Qed.

(** X10.  Whatever its outcome, [commit_rotate] touches only the two objects
    it was given: every other connection and record object is as before;
    of the record it changes only [state]; of the connection only
    [their_did], which afterwards is the old value or the record's new
    DID. *)
Theorem commit_rotate_frame
    (env : Collaborators) (c r : nat) (w : World)
    (conn : ConnRecord) (record : RotateRecord) :
  let w' := (commit_rotate env c r w).2 in
  conns w !! c = Some conn →
  records w !! r = Some record →
  (∀ c', c' ≠ c → conns w' !! c' = conns w !! c') ∧
  (∀ r', r' ≠ r → records w' !! r' = records w !! r') ∧
  records w' !! r = Some (with_state STATE_ACK_SENT record) ∧
  (conns w' !! c = Some conn ∨
   conns w' !! c = Some (with_their_did (new_did record) conn)).
Proof.
  intros w' Hc Hr. subst w'.
  destruct (truthy (new_did record)) as [did|] eqn:Ht.
  - rewrite (commit_rotate_cases env c r w conn record did Hc Hr Ht).
    cbn zeta.
    destruct (perform env (CallRecordKeys did)) as [e|]; cbn.
    { rewrite lookup_insert_eq. repeat split; auto.
      intros r' Hne. by rewrite lookup_insert_ne. }
    assert (Hframe :
      (∀ c', c' ≠ c →
         <[c:=with_their_did (new_did record) conn]> (conns w) !! c'
           = conns w !! c') ∧
      (∀ r', r' ≠ r →
         <[r:=with_state STATE_ACK_SENT record]> (records w) !! r'
           = records w !! r') ∧
      <[r:=with_state STATE_ACK_SENT record]> (records w) !! r
        = Some (with_state STATE_ACK_SENT record) ∧
      (<[c:=with_their_did (new_did record) conn]> (conns w) !! c
         = Some conn ∨
       <[c:=with_their_did (new_did record) conn]> (conns w) !! c
         = Some (with_their_did (new_did record) conn))).
    { rewrite !lookup_insert_eq. repeat split; auto.
      - intros c' Hne. by rewrite lookup_insert_ne.
      - intros r' Hne. by rewrite lookup_insert_ne. }
    repeat match goal with |- context [perform env ?k] =>
      destruct (perform env k) end; exact Hframe.
  - rewrite (commit_rotate_no_new_did env c r w record Hr Ht). cbn.
    rewrite lookup_insert_eq. repeat split; auto.
    intros r' Hne. by rewrite lookup_insert_ne.
Qed.

(** X11.  Nothing stops a second commit of the same record: with
    collaborators that succeed, committing again returns again, sends one
    more RotateAck for the same thread, under the next message id, and
    leaves both objects as the first commit left them. *)
Theorem commit_rotate_twice
    (env : Collaborators) (c r : nat) (w : World)
    (conn : ConnRecord) (record : RotateRecord) (did : string) :
  conns w !! c = Some conn →
  records w !! r = Some record →
  new_did record = Some did →
  did ≠ "" →
  (∀ call, perform env call = None) →
  ∃ w1 w2,
    commit_rotate env c r w = (Returned tt, w1) ∧
    commit_rotate env c r w1 = (Returned tt, w2) ∧
    conns w2 = conns w1 ∧
    records w2 = records w1 ∧
    sent_messages (new_calls w1 w2)
      = [(MsgRotateAck
            (mkRotateAck (uuid4 env (S (next_uuid w))) (thread_id record)),
          conn_connection_id conn)].
Proof.
  intros Hc Hr Hd Hne Hok.
  assert (Ht : truthy (new_did record) = Some did) by by apply truthy_Some.
  pose proof (commit_rotate_cases env c r w conn record did Hc Hr Ht) as E1.
  cbn zeta in E1. rewrite !Hok in E1.
  eexists _, _. split; [exact E1|].
  match type of E1 with _ = (_, ?w1) =>
    pose proof (commit_rotate_cases env c r w1
                  (with_their_did (new_did record) conn)
                  (with_state STATE_ACK_SENT record) did) as E2
  end.
  cbn zeta in E2. rewrite !Hok in E2. cbn in E2.
  rewrite !lookup_insert_eq in E2.
  specialize (E2 eq_refl eq_refl Ht).
  split; [exact E2|].
  split; [cbn; by rewrite insert_insert_eq|].
  split; [cbn; by rewrite insert_insert_eq|].
  erewrite new_calls_app by (cbn; reflexivity). reflexivity.
Qed.

(** *** [ensure_supported_did] and [receive_rotate], the other paths *)

Lemma ensure_supported_did_ok env did w :
  perform env (CallResolve did) = None →
  perform env (CallResolveDidcommServices did) = None →
  ensure_supported_did env did w =
    (Returned tt,
     mkWorld (trace w ++ [CallResolve did; CallResolveDidcommServices did])
             (next_uuid w) (conns w) (records w)).
Proof.
  intros HR HS. unfold ensure_supported_did. unfold_monad.
  rewrite HR. cbn. rewrite HS. cbn. by rewrite <- app_assoc.
Qed.

(** X12.  Exceptions that [ensure_supported_did] does not name pass through
    it unchanged: one from the resolver stops validation before service
    discovery, one from service discovery is not turned into
    [DIDRotateManagerError]; in neither case is a problem report built (no
    message id is drawn). *)
Theorem ensure_supported_did_passes_other_errors
    (env : Collaborators) (did : string) (w : World) (e : exn) :
  (perform env (CallResolve did) = Some e →
   e ≠ DIDMethodNotSupported → e ≠ DIDNotFound →
   ensure_supported_did env did w =
     (Raised e,
      mkWorld (trace w ++ [CallResolve did])
              (next_uuid w) (conns w) (records w))) ∧
  (perform env (CallResolve did) = None →
   perform env (CallResolveDidcommServices did) = Some e →
   (∀ msg, e ≠ BaseConnectionManagerError msg) →
   ensure_supported_did env did w =
     (Raised e,
      mkWorld (trace w ++ [CallResolve did; CallResolveDidcommServices did])
              (next_uuid w) (conns w) (records w))).
Proof.
  split.
  - intros HR H1 H2. unfold ensure_supported_did. unfold_monad.
    rewrite HR. destruct e; done.
  - intros HR HS Hother. unfold ensure_supported_did. unfold_monad.
    rewrite HR. cbn. rewrite HS. rewrite <- app_assoc.
    destruct e; try reflexivity. by destruct (Hother msg).
Qed.

(** X13.  A Rotate whose DID resolves and has DIDComm services is recorded
    without any message going out: [receive_rotate] returns after saving the
    OBSERVING/RECEIVED record that carries the proposed DID and the Rotate's
    message id as thread id; the object heap is as before. *)
Theorem receive_rotate_valid_did
    (env : Collaborators) (conn : ConnRecord) (rotate : Rotate) (w : World) :
  let cid := conn_connection_id conn in
  let record :=
    mkRotateRecord ROLE_OBSERVING STATE_ROTATE_RECEIVED cid
                   (Some (to_did rotate)) (Some (rotate_message_id rotate)) in
  perform env (CallResolve (to_did rotate)) = None →
  perform env (CallResolveDidcommServices (to_did rotate)) = None →
  perform env (CallSaveRecord record "Received rotate message" None) = None →
  ∃ w',
    receive_rotate env conn rotate w = (Returned tt, w') ∧
    new_calls w w' =
      [CallResolve (to_did rotate);
       CallResolveDidcommServices (to_did rotate);
       CallSaveRecord record "Received rotate message" None] ∧
    sent_messages (new_calls w w') = [] ∧
    saved_records (new_calls w w') = [record] ∧
    conns w' = conns w ∧ records w' = records w.
Proof.
  intros cid record HR HS Hsave. subst cid record.
  eexists. split.
  - unfold receive_rotate. unfold try_except, mbind, M_bind.
    rewrite (ensure_supported_did_ok _ _ _ HR HS).
    unfold_monad. cbn. rewrite Hsave. reflexivity.
  - cbn. erewrite new_calls_app by (trace_norm; reflexivity).
    repeat split.
Qed.

(** X14.  If the responder fails on the problem report, [receive_rotate]
    ends with the responder's exception and the record is not handed to
    storage: the failed attempt is stored only when the report could be
    sent. *)
Theorem receive_rotate_report_send_failure
    (env : Collaborators) (conn : ConnRecord) (rotate : Rotate)
    (w w1 : World) (e e' : exn) (report : RotateProblemReport) :
  ensure_supported_did env (to_did rotate) w = (Raised e, w1) →
  as_ReportableDIDRotateError e = Some report →
  perform env (CallSend (MsgProblemReport report) (conn_connection_id conn))
    = Some e' →
  ∃ w',
    receive_rotate env conn rotate w = (Raised e', w') ∧
    trace w' = trace w1 ++
      [CallSend (MsgProblemReport report) (conn_connection_id conn)] ∧
    saved_records (new_calls w w') = [].
Proof.
  intros Hens Hrep Hsend.
  destruct (ensure_supported_did_quiet _ _ _ _ _ Hens)
    as (t & Ht & _ & Htr & _).
  eexists. split.
  - unfold receive_rotate. unfold try_except, mbind, M_bind.
    rewrite Hens, Hrep. unfold_monad. rewrite Hsend. reflexivity.
  - cbn. split; [reflexivity|].
    erewrite new_calls_app by (cbn; rewrite Ht, <- !app_assoc; reflexivity).
    unfold saved_records in *. by rewrite omap_app, Htr.
Qed.

(** Every run of [receive_rotate], by what it leaves behind. *)
Lemma receive_rotate_run env conn rotate w :
  let cid := conn_connection_id conn in
  let record :=
    mkRotateRecord ROLE_OBSERVING STATE_ROTATE_RECEIVED cid
                   (Some (to_did rotate)) (Some (rotate_message_id rotate)) in
  let out := (receive_rotate env conn rotate w).1 in
  let w' := (receive_rotate env conn rotate w).2 in
  conns w' = conns w ∧
  records w' = records w ∧
  (sent_messages (new_calls w w') = [] ∨
   ∃ report, sent_messages (new_calls w w') = [(MsgProblemReport report, cid)]) ∧
  ((saved_records (new_calls w w') = [] ∧ out ≠ Returned tt) ∨
   saved_records (new_calls w w') = [record]) ∧
  saved_conns (new_calls w w') = [].
Proof.
  intros cid record out w'. subst cid record out w'.
  destruct (ensure_supported_did env (to_did rotate) w) as [out w1] eqn:Hens.
  pose proof (ensure_supported_did_calls env (to_did rotate) w)
    as (t & Ht & Hcase & Hcns & Hrecs).
  rewrite Hens in Ht, Hcns, Hrecs. cbn in Ht, Hcns, Hrecs.
  assert (Hq : sent_messages t = [] ∧ saved_records t = [] ∧
               saved_conns t = [])
    by (destruct Hcase; subst t; repeat split).
  destruct Hq as (Hts & Htr & Htc).
  unfold receive_rotate. unfold try_except, mbind, M_bind. rewrite Hens.
  destruct out as [[]|e|].
  - unfold_monad. cbn.
    match goal with |- context [perform env ?k] =>
      destruct (perform env k) end; cbn;
      (erewrite new_calls_app by (cbn; rewrite Ht, <- app_assoc; reflexivity));
      unfold sent_messages, saved_records, saved_conns in *;
      rewrite !omap_app, Hts, Htr, Htc; cbn; repeat split; eauto.
  - destruct (as_ReportableDIDRotateError e) as [report|]; cbn.
    + unfold_monad. cbn.
      match goal with |- context [perform env (CallSend ?m ?i)] =>
        destruct (perform env (CallSend m i)) end; cbn.
      * erewrite new_calls_app
          by (cbn; rewrite Ht, <- app_assoc; reflexivity).
        unfold sent_messages, saved_records, saved_conns in *.
        rewrite !omap_app, Hts, Htr, Htc; cbn; repeat split; eauto.
      * match goal with |- context [perform env ?k] =>
          destruct (perform env k) end; cbn;
          (erewrite new_calls_app
             by (cbn; rewrite Ht, <- !app_assoc; reflexivity));
          unfold sent_messages, saved_records, saved_conns in *;
          rewrite !omap_app, Hts, Htr, Htc; cbn; repeat split; eauto.
    + rewrite (new_calls_app _ _ _ Ht). repeat split; auto.
  - cbn. rewrite (new_calls_app _ _ _ Ht). repeat split; auto.
Qed.

(** X15.  Whatever the collaborators do, [receive_rotate] leaves the object
    heap alone, sends at most one message, which is then a problem report
    addressed to the connection the Rotate came from, and hands at most one
    record to storage, which is then the OBSERVING/RECEIVED record of this
    Rotate. *)
Theorem receive_rotate_effects
    (env : Collaborators) (conn : ConnRecord) (rotate : Rotate) (w : World) :
  let cid := conn_connection_id conn in
  let record :=
    mkRotateRecord ROLE_OBSERVING STATE_ROTATE_RECEIVED cid
                   (Some (to_did rotate)) (Some (rotate_message_id rotate)) in
  let w' := (receive_rotate env conn rotate w).2 in
  conns w' = conns w ∧
  records w' = records w ∧
  (sent_messages (new_calls w w') = [] ∨
   ∃ report, sent_messages (new_calls w w') = [(MsgProblemReport report, cid)]) ∧
  (saved_records (new_calls w w') = [] ∨
   saved_records (new_calls w w') = [record]) ∧
  saved_conns (new_calls w w') = [].
Proof.
  intros cid record w'.
  destruct (receive_rotate_run env conn rotate w)
    as (Hc & Hr & Hs & Hsaved & Hsc).
  repeat split; try assumption.
  destruct Hsaved as [[E _]|E]; [by left | by right].
Qed.

(** *** [rotate_my_did], the other paths *)

(** Every run of [rotate_my_did], by the first collaborator call that
    raises. *)
Lemma rotate_my_did_cases env conn did w :
  let cid := conn_connection_id conn in
  let rot := mkRotate (uuid4 env (next_uuid w)) did in
  let record :=
    mkRotateRecord ROLE_ROTATING STATE_ROTATE_SENT cid (Some did)
                   (Some (rotate_message_id rot)) in
  let k1 := CallSend (MsgRotate rot) cid in
  let k2 := CallSaveRecord record "Sent rotate message" None in
  rotate_my_did env conn did w =
    match perform env k1 with
    | Some e =>
        (Raised e,
         mkWorld (trace w ++ [k1]) (S (next_uuid w)) (conns w) (records w))
    | None =>
        (match perform env k2 with
         | Some e => Raised e
         | None => Returned tt
         end,
         mkWorld (trace w ++ [k1; k2]) (S (next_uuid w))
                 (conns w) (records w))
    end.
Proof.
  cbn zeta. unfold rotate_my_did. unfold_monad. cbn.
  destruct (perform env (CallSend _ _)); [reflexivity|]. cbn.
  destruct (perform env (CallSaveRecord _ _ _)); trace_norm; reflexivity.
Qed.

(** X16.  If the responder fails on the Rotate, [rotate_my_did] ends with
    the responder's exception and no record of the attempt is handed to
    storage. *)
Theorem rotate_my_did_send_failure
    (env : Collaborators) (conn : ConnRecord) (did : string) (w : World)
    (e : exn) :
  let cid := conn_connection_id conn in
  let rot := mkRotate (uuid4 env (next_uuid w)) did in
  perform env (CallSend (MsgRotate rot) cid) = Some e →
  ∃ w',
    rotate_my_did env conn did w = (Raised e, w') ∧
    new_calls w w' = [CallSend (MsgRotate rot) cid] ∧
    saved_records (new_calls w w') = [].
Proof.
  intros cid rot Hsend. subst cid rot.
  rewrite rotate_my_did_cases. cbn zeta. rewrite Hsend.
  eexists. split; [reflexivity|].
  erewrite new_calls_app by (cbn; reflexivity). split; reflexivity.
Qed.

(** X17.  If storage fails after the Rotate went out, [rotate_my_did] ends
    with the storage exception: the message has been sent, once, and is not
    sent again or taken back. *)
Theorem rotate_my_did_save_failure
    (env : Collaborators) (conn : ConnRecord) (did : string) (w : World)
    (e : exn) :
  let cid := conn_connection_id conn in
  let rot := mkRotate (uuid4 env (next_uuid w)) did in
  let record :=
    mkRotateRecord ROLE_ROTATING STATE_ROTATE_SENT cid (Some did)
                   (Some (rotate_message_id rot)) in
  perform env (CallSend (MsgRotate rot) cid) = None →
  perform env (CallSaveRecord record "Sent rotate message" None) = Some e →
  ∃ w',
    rotate_my_did env conn did w = (Raised e, w') ∧
    sent_messages (new_calls w w') = [(MsgRotate rot, cid)] ∧
    new_calls w w' =
      [CallSend (MsgRotate rot) cid;
       CallSaveRecord record "Sent rotate message" None].
Proof.
  intros cid rot record Hsend Hsave. subst cid rot record.
  rewrite rotate_my_did_cases. cbn zeta. cbn in Hsave. rewrite Hsend.
  cbn. rewrite Hsave.
  eexists. split; [reflexivity|].
  erewrite new_calls_app by (cbn; reflexivity). split; reflexivity.
Qed.

(** *** The operations together *)

(** X18.  The record that [receive_rotate] hands to storage can be
    committed: with the connection it came on and collaborators that
    succeed, [commit_rotate] acknowledges the thread of the Rotate (the
    ack's thread id is the Rotate's message id) and adopts the proposed
    DID.  The one exception is a Rotate with an empty [to_did]: its record
    makes [commit_rotate] raise [ValueError] without any collaborator
    call. *)
Theorem receive_then_commit
    (env env' : Collaborators) (conn : ConnRecord) (rotate : Rotate)
    (w w2 : World) (c r : nat) (record : RotateRecord) :
  saved_records (new_calls w (receive_rotate env conn rotate w).2)
    = [record] →
  conns w2 !! c = Some conn →
  records w2 !! r = Some record →
  (∀ call, perform env' call = None) →
  (to_did rotate ≠ "" →
     ∃ w',
       commit_rotate env' c r w2 = (Returned tt, w') ∧
       sent_messages (new_calls w2 w')
         = [(MsgRotateAck
               (mkRotateAck (uuid4 env' (next_uuid w2))
                            (Some (rotate_message_id rotate))),
             conn_connection_id conn)] ∧
       their_did <$> conns w' !! c = Some (Some (to_did rotate))) ∧
  (to_did rotate = "" →
     ∃ w',
       commit_rotate env' c r w2
         = (Raised (ValueError "No new DID stored in record"), w') ∧
       new_calls w2 w' = [] ∧
       conns w' = conns w2).
Proof.
  intros Hsaved Hc Hr Hok.
  destruct (receive_rotate_run env conn rotate w)
    as (_ & _ & _ & Hcase & _).
  destruct Hcase as [[E _]|E]; rewrite E in Hsaved; [discriminate|].
  inversion Hsaved; subst record. clear Hsaved E. split.
  - intros Hne.
    assert (Ht : truthy (Some (to_did rotate)) = Some (to_did rotate))
      by (apply truthy_Some; done).
    rewrite (commit_rotate_cases env' c r w2 conn _ _ Hc Hr Ht).
    cbn zeta. rewrite !Hok. eexists. split; [reflexivity|].
    erewrite new_calls_app by (cbn; reflexivity). cbn.
    by rewrite lookup_insert_eq.
  - intros Hempty.
    assert (Ht : truthy (Some (to_did rotate)) = None) by by rewrite Hempty.
    rewrite (commit_rotate_no_new_did env' c r w2 _ Hr Ht).
    eexists. split; [reflexivity|]. cbn. split; [|reflexivity].
    apply new_calls_app. cbn. by rewrite app_nil_r.
Qed.

(** X19.  The two parties agree on the attempt.  When the Rotate that
    [rotate_my_did] sent is the one [receive_rotate] gets, the record the
    rotating party stores and the record the observing party stores carry
    the same thread id, the Rotate's message id, and the same new DID; the
    first is ROTATING/SENT, the second OBSERVING/RECEIVED, each under its own
    connection id. *)
Theorem rotate_then_receive
    (envA envB : Collaborators) (connA connB : ConnRecord) (did : string)
    (wA wB : World) (rot : Rotate) (cid : string) (rA rB : RotateRecord) :
  sent_messages (new_calls wA (rotate_my_did envA connA did wA).2)
    = [(MsgRotate rot, cid)] →
  saved_records (new_calls wA (rotate_my_did envA connA did wA).2) = [rA] →
  saved_records (new_calls wB (receive_rotate envB connB rot wB).2) = [rB] →
  thread_id rA = Some (rotate_message_id rot) ∧
  thread_id rB = thread_id rA ∧
  new_did rA = Some did ∧
  new_did rB = new_did rA ∧
  (role rA, state rA) = (ROLE_ROTATING, STATE_ROTATE_SENT) ∧
  (role rB, state rB) = (ROLE_OBSERVING, STATE_ROTATE_RECEIVED) ∧
  connection_id rA = conn_connection_id connA ∧
  connection_id rB = conn_connection_id connB.
Proof.
  intros Hsent HsA HsB.
  rewrite rotate_my_did_cases in Hsent, HsA. cbn zeta in Hsent, HsA.
  destruct (receive_rotate_run envB connB rot wB)
    as (_ & _ & _ & Hcase & _).
  destruct Hcase as [[E _]|E]; rewrite E in HsB; [discriminate|].
  inversion HsB; subst rB. clear HsB E.
  destruct (perform envA (CallSend _ _)); cbn in Hsent, HsA.
  - erewrite new_calls_app in HsA by (cbn; reflexivity). discriminate.
  - erewrite new_calls_app in Hsent, HsA by (cbn; reflexivity).
    cbn in Hsent, HsA. inversion Hsent; subst rot cid.
    inversion HsA; subst rA. cbn. repeat split.
Qed.

(** *** More concrete runs *)

Lemma commit_rotate_send_failure_witness :
  ∃ w',
    commit_rotate Sample.send_fails 0 0 (Sample.world_with Sample.received)
      = (Raised (OtherError "transport"), w') ∧
    their_did <$> conns w' !! 0 = Some (Some "did:example:new") ∧
    saved_conns (new_calls (Sample.world_with Sample.received) w') = [].
Proof.
  destruct (commit_rotate_send_failure
              Sample.send_fails 0 0 (Sample.world_with Sample.received)
              Sample.R1 Sample.received "did:example:new"
              (OtherError "transport")
              eq_refl eq_refl eq_refl ltac:(discriminate) eq_refl eq_refl)
    as (w' & Hrun & Hconn & Hsc & _).
  exists w'. split; [exact Hrun|]. rewrite Hconn. split; [reflexivity|exact Hsc].
Defined.

Lemma commit_rotate_key_recording_other_error_witness :
  ∃ w',
    commit_rotate
      (mkCollaborators
         (λ c, match c with
               | CallRecordKeys _ => Some (OtherError "wallet")
               | _ => None
               end) Sample.uuids)
      0 0 (Sample.world_with Sample.received)
      = (Raised (OtherError "wallet"), w') ∧
    conns w' = conns (Sample.world_with Sample.received).
Proof.
  destruct (commit_rotate_key_recording_other_error
              (mkCollaborators
                 (λ c, match c with
                       | CallRecordKeys _ => Some (OtherError "wallet")
                       | _ => None
                       end) Sample.uuids)
              0 0 (Sample.world_with Sample.received)
              Sample.R1 Sample.received "did:example:new"
              (OtherError "wallet")
              eq_refl eq_refl eq_refl ltac:(discriminate) eq_refl
              ltac:(discriminate))
    as (w' & Hrun & Hconn & _).
  exists w'. split; assumption.
Defined.

Lemma commit_rotate_writes_after_ack_witness :
  saved_conns
    (new_calls (Sample.world_with Sample.received)
       (commit_rotate Sample.all_succeed 0 0
                      (Sample.world_with Sample.received)).2)
  = [(mkConnRecord "R1" (Some "did:example:new"), Some false)].
Proof.
  apply (proj2 (commit_rotate_writes_after_ack
                  Sample.all_succeed 0 0 (Sample.world_with Sample.received)
                  Sample.R1 Sample.received "did:example:new"
                  eq_refl eq_refl eq_refl ltac:(discriminate))).
  discriminate.
Defined.

Lemma commit_rotate_frame_witness :
  records (commit_rotate Sample.keys_fail 0 0
             (Sample.world_with Sample.received)).2 !! 1 = None ∧
  records (commit_rotate Sample.keys_fail 0 0
             (Sample.world_with Sample.received)).2 !! 0
    = Some (with_state STATE_ACK_SENT Sample.received).
Proof.
  destruct (commit_rotate_frame
              Sample.keys_fail 0 0 (Sample.world_with Sample.received)
              Sample.R1 Sample.received eq_refl eq_refl)
    as (_ & Hr & Hrec & _).
  split; [|exact Hrec].
  rewrite (Hr 1) by discriminate. reflexivity.
Defined.

Lemma commit_rotate_twice_witness :
  ∃ w1 w2,
    commit_rotate Sample.all_succeed 0 0 (Sample.world_with Sample.received)
      = (Returned tt, w1) ∧
    commit_rotate Sample.all_succeed 0 0 w1 = (Returned tt, w2) ∧
    sent_messages (new_calls w1 w2)
      = [(MsgRotateAck (mkRotateAck "0c5d8b1e-0001" (Some "thread-1")),
          "R1")].
Proof.
  destruct (commit_rotate_twice
              Sample.all_succeed 0 0 (Sample.world_with Sample.received)
              Sample.R1 Sample.received "did:example:new"
              eq_refl eq_refl eq_refl ltac:(discriminate)
              ltac:(reflexivity))
    as (w1 & w2 & H1 & H2 & _ & _ & Hsent).
  exists w1, w2. repeat split; assumption.
Defined.

Lemma ensure_supported_did_passes_other_errors_witness :
  (ensure_supported_did Sample.resolver_breaks "did:web:x"
                        Sample.empty_world).1
    = Raised (OtherError "resolver") ∧
  (ensure_supported_did Sample.discovery_breaks "did:web:x"
                        Sample.empty_world).1
    = Raised (OtherError "discovery").
Proof.
  split.
  - rewrite (proj1 (ensure_supported_did_passes_other_errors
                      Sample.resolver_breaks "did:web:x" Sample.empty_world
                      (OtherError "resolver")) eq_refl
               ltac:(discriminate) ltac:(discriminate)).
    reflexivity.
  - rewrite (proj2 (ensure_supported_did_passes_other_errors
                      Sample.discovery_breaks "did:web:x" Sample.empty_world
                      (OtherError "discovery")) eq_refl eq_refl
               ltac:(discriminate)).
    reflexivity.
Defined.

Lemma receive_rotate_valid_did_witness :
  ∃ w',
    receive_rotate Sample.all_succeed Sample.R1 Sample.incoming
                   Sample.empty_world = (Returned tt, w') ∧
    sent_messages (new_calls Sample.empty_world w') = [] ∧
    saved_records (new_calls Sample.empty_world w') = [Sample.received].
Proof.
  destruct (receive_rotate_valid_did
              Sample.all_succeed Sample.R1 Sample.incoming
              Sample.empty_world eq_refl eq_refl eq_refl)
    as (w' & Hrun & _ & Hsent & Hsaved & _).
  exists w'. repeat split; assumption.
Defined.

Lemma receive_rotate_report_send_failure_witness :
  ∃ w',
    receive_rotate Sample.not_found_and_send_fails Sample.R1 Sample.incoming
                   Sample.empty_world
      = (Raised (OtherError "transport"), w') ∧
    saved_records (new_calls Sample.empty_world w') = [].
Proof.
  destruct (receive_rotate_report_send_failure
              Sample.not_found_and_send_fails Sample.R1 Sample.incoming
              Sample.empty_world _ _ (OtherError "transport") _
              eq_refl eq_refl eq_refl)
    as (w' & Hrun & _ & Hsaved).
  exists w'. split; assumption.
Defined.

Lemma rotate_my_did_send_failure_witness :
  ∃ w',
    rotate_my_did Sample.send_fails Sample.R1 "did:example:new"
                  Sample.empty_world
      = (Raised (OtherError "transport"), w') ∧
    saved_records (new_calls Sample.empty_world w') = [].
Proof.
  destruct (rotate_my_did_send_failure
              Sample.send_fails Sample.R1 "did:example:new"
              Sample.empty_world (OtherError "transport") eq_refl)
    as (w' & Hrun & _ & Hsaved).
  exists w'. split; assumption.
Defined.

Lemma rotate_my_did_save_failure_witness :
  ∃ w',
    rotate_my_did Sample.record_save_fails Sample.R1 "did:example:new"
                  Sample.empty_world
      = (Raised (OtherError "storage"), w') ∧
    sent_messages (new_calls Sample.empty_world w')
      = [(MsgRotate (mkRotate "0c5d8b1e-0000" "did:example:new"), "R1")].
Proof.
  destruct (rotate_my_did_save_failure
              Sample.record_save_fails Sample.R1 "did:example:new"
              Sample.empty_world (OtherError "storage") eq_refl eq_refl)
    as (w' & Hrun & Hsent & _).
  exists w'. split; assumption.
Defined.

Lemma receive_then_commit_witness :
  ∃ w',
    commit_rotate Sample.all_succeed 0 0 (Sample.world_with Sample.received)
      = (Returned tt, w') ∧
    sent_messages (new_calls (Sample.world_with Sample.received) w')
      = [(MsgRotateAck (mkRotateAck "0c5d8b1e-0000" (Some "thread-1")),
          "R1")].
Proof.
  destruct (proj1 (receive_then_commit
                     Sample.did_not_found Sample.all_succeed
                     Sample.R1 Sample.incoming
                     Sample.empty_world (Sample.world_with Sample.received)
                     0 0 Sample.received
                     eq_refl eq_refl eq_refl ltac:(reflexivity))
                  ltac:(discriminate))
    as (w' & Hrun & Hsent & _).
  exists w'. split; assumption.
Defined.

Lemma rotate_then_receive_witness :
  let rA := mkRotateRecord ROLE_ROTATING STATE_ROTATE_SENT "R1"
                           (Some "did:example:new") (Some "0c5d8b1e-0000") in
  let rB := mkRotateRecord ROLE_OBSERVING STATE_ROTATE_RECEIVED "R1"
                           (Some "did:example:new") (Some "0c5d8b1e-0000") in
  saved_records
    (new_calls Sample.empty_world
       (rotate_my_did Sample.all_succeed Sample.R1 "did:example:new"
                      Sample.empty_world).2) = [rA] ∧
  saved_records
    (new_calls Sample.empty_world
       (receive_rotate Sample.all_succeed Sample.R1
          (mkRotate "0c5d8b1e-0000" "did:example:new")
          Sample.empty_world).2) = [rB] ∧
  thread_id rB = thread_id rA ∧
  new_did rB = new_did rA.
Proof.
  intros rA rB.
  split; [reflexivity|]. split; [reflexivity|].
  destruct (rotate_then_receive
              Sample.all_succeed Sample.all_succeed Sample.R1 Sample.R1
              "did:example:new" Sample.empty_world Sample.empty_world
              (mkRotate "0c5d8b1e-0000" "did:example:new") "R1"
              rA rB eq_refl eq_refl eq_refl)
    as (_ & H2 & _ & H4 & _).
  split; assumption.
Defined.
